(** * Screenshot capture of the phone agent (phone_agent/adb/screenshot.py)

    A shallow embedding of [get_screenshot], [_get_adb_prefix] and
    [_create_fallback_screenshot], with the libraries they call
    (subprocess, PIL, the UTF-8 codec, the standard output) taken as
    collaborators, and the properties of the retry / fallback decision
    procedure. *)

From Stdlib Require Import List String Ascii ZArith Bool Lia.
From Stdlib Require Import Strings.Byte.
Import ListNotations.
Local Open Scope string_scope.
Local Open Scope Z_scope.

(* ------------------------------------------------------------------ *)
(** ** Python values used by the module *)

(** [bytes] objects are lists of bytes; [str] objects are Rocq strings
    (a text is kept as its UTF-8 encoding, on which searching for an ASCII
    substring and concatenation coincide with the code-point operations). *)
Definition bytes := list byte.

(** Truth value of a [bytes] object and of a [str]: empty is false. *)
Definition bytes_truthy (b : bytes) : bool :=
  match b with [] => false | _ :: _ => true end.

Definition str_truthy (s : string) : bool :=
  match s with EmptyString => false | String _ _ => true end.

(** [x or d] for an optional [bytes] value: a falsy [x] (None or empty)
    gives [d]. *)
Definition bytes_or (x : option bytes) (d : bytes) : bytes :=
  match x with
  | Some b => if bytes_truthy b then b else d
  | None => d
  end.

(** [data.startswith(pre)] on bytes. *)
Fixpoint startswith (data pre : bytes) : bool :=
  match pre, data with
  | [], _ => true
  | _ :: _, [] => false
  | p :: pre', d :: data' => Byte.eqb d p && startswith data' pre'
  end.

(** [sub in s] on strings: [sub] is a prefix of some suffix of [s]. *)
Fixpoint str_in (sub s : string) : bool :=
  String.prefix sub s ||
  match s with
  | EmptyString => false
  | String _ s' => str_in sub s'
  end.

(** The eight bytes [b"\x89PNG\r\n\x1a\n"]. *)
Definition png_magic : bytes := [x89; x50; x4e; x47; x0d; x0a; x1a; x0a].

(* ------------------------------------------------------------------ *)
(** ** base64.b64encode *)

Module Base64.

(** A group of six bits, most significant first. *)
Definition sextet : Type := (bool * bool * bool * bool * bool * bool)%type.

Definition bit (b : bool) : nat := if b then 1%nat else 0%nat.

Definition sextet_index (s : sextet) : nat :=
  let '(b5, b4, b3, b2, b1, b0) := s in
  (32 * bit b5 + 16 * bit b4 + 8 * bit b3 + 4 * bit b2 + 2 * bit b1 + bit b0)%nat.

Definition alphabet : list ascii :=
  list_ascii_of_string
    "ABCDEFGHIJKLMNOPQRSTUVWXYZabcdefghijklmnopqrstuvwxyz0123456789+/".

Definition pad : ascii := "="%char.

Definition char_of_sextet (s : sextet) : ascii :=
  nth (sextet_index s) alphabet pad.

(** The 24 bits of three bytes cut into four sextets.  [Byte.to_bits]
    lists the bits of a byte from the least significant one. *)
Definition sextets_of (a b c : byte) : sextet * sextet * sextet * sextet :=
  let '(a0, (a1, (a2, (a3, (a4, (a5, (a6, a7))))))) := Byte.to_bits a in
  let '(b0, (b1, (b2, (b3, (b4, (b5, (b6, b7))))))) := Byte.to_bits b in
  let '(c0, (c1, (c2, (c3, (c4, (c5, (c6, c7))))))) := Byte.to_bits c in
  ((a7, a6, a5, a4, a3, a2),
   (a1, a0, b7, b6, b5, b4),
   (b3, b2, b1, b0, c7, c6),
   (c5, c4, c3, c2, c1, c0)).

Fixpoint encode_chars (data : bytes) : list ascii :=
  match data with
  | [] => []
  | [a] =>
      let '(s1, s2, _, _) := sextets_of a x00 x00 in
      [char_of_sextet s1; char_of_sextet s2; pad; pad]
  | [a; b] =>
      let '(s1, s2, s3, _) := sextets_of a b x00 in
      [char_of_sextet s1; char_of_sextet s2; char_of_sextet s3; pad]
  | a :: b :: c :: rest =>
      let '(s1, s2, s3, s4) := sextets_of a b c in
      char_of_sextet s1 :: char_of_sextet s2 ::
      char_of_sextet s3 :: char_of_sextet s4 :: encode_chars rest
  end.

(** [base64.b64encode(data).decode("utf-8")]: the encoded text. *)
Definition b64encode (data : bytes) : string :=
  string_of_list_ascii (encode_chars data).

(** The inverse direction, used to say what an encoded text stands for. *)
Fixpoint index_of (c : ascii) (l : list ascii) : option nat :=
  match l with
  | [] => None
  | x :: l' =>
      if Ascii.eqb c x then Some 0%nat
      else option_map S (index_of c l')
  end.

Definition sextet_of_index (n : nat) : sextet :=
  (Nat.testbit n 5, Nat.testbit n 4, Nat.testbit n 3,
   Nat.testbit n 2, Nat.testbit n 1, Nat.testbit n 0).

Definition sextet_of_char (c : ascii) : option sextet :=
  option_map sextet_of_index (index_of c alphabet).

Definition bytes_of (s1 s2 s3 s4 : sextet) : byte * byte * byte :=
  let '(p5, p4, p3, p2, p1, p0) := s1 in
  let '(q5, q4, q3, q2, q1, q0) := s2 in
  let '(r5, r4, r3, r2, r1, r0) := s3 in
  let '(t5, t4, t3, t2, t1, t0) := s4 in
  (Byte.of_bits (q4, (q5, (p0, (p1, (p2, (p3, (p4, p5))))))),
   Byte.of_bits (r2, (r3, (r4, (r5, (q0, (q1, (q2, q3))))))),
   Byte.of_bits (t0, (t1, (t2, (t3, (t4, (t5, (r0, r1)))))))).

Definition zero6 : sextet := (false, false, false, false, false, false).

Fixpoint decode_chars (cs : list ascii) : option bytes :=
  match cs with
  | [] => Some []
  | c1 :: c2 :: c3 :: c4 :: rest =>
      match sextet_of_char c1, sextet_of_char c2 with
      | Some s1, Some s2 =>
          if Ascii.eqb c4 pad then
            match rest with
            | [] =>
                if Ascii.eqb c3 pad then
                  let '(a, _, _) := bytes_of s1 s2 zero6 zero6 in Some [a]
                else
                  match sextet_of_char c3 with
                  | Some s3 =>
                      let '(a, b, _) := bytes_of s1 s2 s3 zero6 in
                      Some [a; b]
                  | None => None
                  end
            | _ :: _ => None
            end
          else
            match sextet_of_char c3, sextet_of_char c4, decode_chars rest with
            | Some s3, Some s4, Some tl =>
                let '(a, b, c) := bytes_of s1 s2 s3 s4 in
                Some (a :: b :: c :: tl)
            | _, _, _ => None
            end
      | _, _ => None
      end
  | _ => None
  end.

Definition b64decode (s : string) : option bytes :=
  decode_chars (list_ascii_of_string s).

End Base64.


(* ------------------------------------------------------------------ *)
(** ** Exceptions *)

(** The exception classes that matter here.  [KeyboardInterrupt],
    [SystemExit] and [GeneratorExit] derive from [BaseException] only;
    every other class derives from [Exception]. *)
Inductive ExcClass : Type :=
| KeyboardInterrupt
| SystemExit
| GeneratorExit
| RuntimeErrorClass
| TimeoutExpired
| FileNotFoundError
| OSError
| MemoryError
| UnidentifiedImageError
| OtherException (name : string).

(** An exception object: its class and what [str(e)] gives. *)
Record PyExc : Type := mkExc { exc_class : ExcClass; exc_str : string }.

(** [isinstance(e, Exception)]: what an [except Exception] clause catches. *)
Definition is_Exception (e : PyExc) : bool :=
  match exc_class e with
  | KeyboardInterrupt | SystemExit | GeneratorExit => false
  | _ => true
  end.

Definition RuntimeError (msg : string) : PyExc := mkExc RuntimeErrorClass msg.

(* ------------------------------------------------------------------ *)
(** ** Data model *)

(** The dataclass [Screenshot]. *)
Record Screenshot : Type := mkScreenshot {
  base64_data : string;
  width : Z;
  height : Z;
  is_sensitive : bool
}.

(** What [subprocess.run(..., capture_output=True)] returns. *)
Record CompletedProcess : Type := mkCompleted {
  returncode : Z;
  stdout : option bytes;
  stderr : option bytes
}.

(** A PIL image: its mode, its size (width, height) and its rows of
    pixels. *)
Definition RGB : Type := (byte * byte * byte)%type.

Record Image : Type := mkImage {
  im_mode : string;
  im_size : Z * Z;
  im_rows : list (list RGB)
}.

Definition black : RGB := (x00, x00, x00).

(** [Image.new(mode, size, color)]: every pixel has the given colour. *)
Definition Image_new (mode : string) (size : Z * Z) (color : RGB) : Image :=
  mkImage mode size
    (repeat (repeat color (Z.to_nat (fst size))) (Z.to_nat (snd size))).

(* ------------------------------------------------------------------ *)
(** ** Collaborators and the world *)

(** The libraries the module calls.  [subprocess_run n argv timeout] is
    the outcome of the call made after [n] earlier ones: a raised exception
    or a completed process.  [bytes_decode] is
    [b.decode("utf-8", errors="ignore")], which never raises;
    [Image_open] is [Image.open(BytesIO(b))]; [Image_save_png] is
    [img.save(buffered, format="PNG")] followed by [buffered.getvalue()].
    [print_raises line] is the exception that [print(line)] raises, if
    any: the standard output may be closed or broken, or unable to encode
    a character of the line. *)
Record Env : Type := mkEnv {
  subprocess_run : nat -> list string -> Z -> PyExc + CompletedProcess;
  bytes_decode : bytes -> string;
  Image_open : bytes -> PyExc + Image;
  Image_save_png : Image -> PyExc + bytes;
  print_raises : string -> option PyExc
}.

(** The observable effects: the commands spawned so far, each with its
    timeout, and the lines written by [print] so far, both oldest
    first. *)
Record World : Type := mkWorld {
  spawned : list (list string * Z);
  printed : list string
}.

(** ** A monad for Python code: state and exceptions *)

Inductive Outcome (A : Type) : Type :=
| Normal (a : A)
| Raised (e : PyExc).
Arguments Normal {A} a.
Arguments Raised {A} e.

Definition Py (A : Type) : Type := World -> Outcome A * World.

Definition ret {A} (a : A) : Py A := fun w => (Normal a, w).

Definition raise {A} (e : PyExc) : Py A := fun w => (Raised e, w).

Definition bind {A B} (m : Py A) (k : A -> Py B) : Py B :=
  fun w =>
    match m w with
    | (Normal a, w') => k a w'
    | (Raised e, w') => (Raised e, w')
    end.

Notation "x <- m ;; k" := (bind m (fun x => k))
  (at level 61, m at next level, right associativity).
Notation "m ;;; k" := (bind m (fun _ => k))
  (at level 61, right associativity).

(** [try: m  except Exception as e: handler e].  An exception that is not
    an instance of [Exception] passes through. *)
Definition try_except {A} (m : Py A) (handler : PyExc -> Py A) : Py A :=
  fun w =>
    match m w with
    | (Normal a, w') => (Normal a, w')
    | (Raised e, w') =>
        if is_Exception e then handler e w' else (Raised e, w')
    end.

(** A library call that raises or returns, without other effect. *)
Definition lift {A} (r : PyExc + A) : Py A :=
  match r with
  | inl e => raise e
  | inr a => ret a
  end.

(** [print(line)]: the line is written, or the write raises and the
    line is not recorded. *)
Definition print (E : Env) (line : string) : Py unit :=
  fun w =>
    match print_raises E line with
    | Some e => (Raised e, w)
    | None => (Normal tt, mkWorld (spawned w) (printed w ++ [line])%list)
    end.

(** [subprocess.run(argv, capture_output=True, timeout=timeout)]: the
    spawn is recorded whatever the outcome. *)
Definition run_subprocess (E : Env) (argv : list string) (timeout : Z)
  : Py CompletedProcess :=
  fun w =>
    let w' := mkWorld (spawned w ++ [(argv, timeout)])%list (printed w) in
    match subprocess_run E (List.length (spawned w)) argv timeout with
    | inl e => (Raised e, w')
    | inr result => (Normal result, w')
    end.

(* ------------------------------------------------------------------ *)
(** ** The module *)

(** [_get_adb_prefix]: [if device_id] is false for [None] and for the
    empty string. *)
Definition _get_adb_prefix (device_id : option string) : list string :=
  match device_id with
  | Some d => if str_truthy d then ["adb"; "-s"; d] else ["adb"]
  | None => ["adb"]
  end.

(** [_create_fallback_screenshot]. *)
Definition _create_fallback_screenshot (E : Env) (is_sensitive : bool)
  : Py Screenshot :=
  let default_width := 1080 in
  let default_height := 2400 in
  let black_img := Image_new "RGB" (default_width, default_height) black in
  buffered <- lift (Image_save_png E black_img) ;;
  let base64_data := Base64.b64encode buffered in
  ret (mkScreenshot base64_data default_width default_height is_sensitive).

(** How one iteration of the loop ends: [continue] (or falling off the
    end of the body) with the value of [last_error], or [return]. *)
Inductive Flow : Type :=
| Continue (last_error : option PyExc)
| Return (s : Screenshot).

(** The body of [for _ in range(2)]. *)
Definition attempt (E : Env) (adb_prefix : list string) (timeout : Z)
    (last_error : option PyExc) : Py Flow :=
  r <- try_except
         (result <- run_subprocess E
                      (adb_prefix ++ ["exec-out"; "screencap"; "-p"])%list
                      timeout ;;
          ret (inr result))
         (fun e => ret (inl e)) ;;
  match r with
  | inl e => ret (Continue (Some e))
  | inr result =>
      let stdout_bytes := bytes_or (stdout result) [] in
      let stderr_text :=
        match stderr result with
        | Some b => if bytes_truthy b then bytes_decode E b else EmptyString
        | None => EmptyString
        end in
      if negb (bytes_truthy stdout_bytes) then
        if str_in "Status: -1" stderr_text || str_in "Failed" stderr_text then
          s <- _create_fallback_screenshot E true ;;
          ret (Return s)
        else
          ret (Continue (Some (RuntimeError "empty screenshot output")))
      else if negb (startswith stdout_bytes png_magic) then
        combined_text <-
          try_except
            (ret (stderr_text ++ bytes_decode E stdout_bytes))
            (fun _ => ret stderr_text) ;;
        if str_in "Status: -1" combined_text || str_in "Failed" combined_text
        then
          s <- _create_fallback_screenshot E true ;;
          ret (Return s)
        else
          ret (Continue (Some (RuntimeError "screenshot output is not PNG")))
      else
        img <- lift (Image_open E stdout_bytes) ;;
        let '(width, height) := im_size img in
        let base64_data := Base64.b64encode stdout_bytes in
        ret (Return (mkScreenshot base64_data width height false))
  end.

(** [for _ in range(n)]: the body runs until it returns or [n] iterations
    are done. *)
Fixpoint for_range (n : nat) (body : option PyExc -> Py Flow)
    (last_error : option PyExc) : Py Flow :=
  match n with
  | O => ret (Continue last_error)
  | S n' =>
      f <- body last_error ;;
      match f with
      | Return s => ret (Return s)
      | Continue last_error' => for_range n' body last_error'
      end
  end.

(** The statements inside the outer [try] of [get_screenshot].  An
    exception object is true, so [if last_error] tests for [None]. *)
Definition capture_body (E : Env) (adb_prefix : list string) (timeout : Z)
  : Py Screenshot :=
  f <- for_range 2 (attempt E adb_prefix timeout) None ;;
  match f with
  | Return s => ret s
  | Continue last_error =>
      match last_error with
      | Some e =>
          print E
            ("Screenshot warn: exec-out failed after retry: " ++ exc_str e) ;;;
          raise e
      | None => _create_fallback_screenshot E false
      end
  end.

(** [get_screenshot]. *)
Definition get_screenshot (E : Env) (device_id : option string) (timeout : Z)
  : Py Screenshot :=
  let adb_prefix := _get_adb_prefix device_id in
  try_except
    (capture_body E adb_prefix timeout)
    (fun e =>
       print E ("Screenshot error: " ++ exc_str e) ;;;
       _create_fallback_screenshot E false).

(* ------------------------------------------------------------------ *)
(** ** Vocabulary of the properties *)

(** The command of one attempt. *)
Definition screencap_command (device_id : option string) : list string :=
  (_get_adb_prefix device_id ++ ["exec-out"; "screencap"; "-p"])%list.

(** The locals [stdout_bytes], [stderr_text] and [combined_text] of an
    attempt whose process completed with [r]. *)
Definition stdout_bytes_of (r : CompletedProcess) : bytes :=
  bytes_or (stdout r) [].

Definition stderr_text_of (E : Env) (r : CompletedProcess) : string :=
  match stderr r with
  | Some b => if bytes_truthy b then bytes_decode E b else EmptyString
  | None => EmptyString
  end.

Definition combined_text_of (E : Env) (r : CompletedProcess) : string :=
  stderr_text_of E r ++ bytes_decode E (stdout_bytes_of r).

(** A text carries a refusal marker. *)
Definition has_marker (text : string) : bool :=
  str_in "Status: -1" text || str_in "Failed" text.

(** The device refused the capture: no output and a marker in the stderr
    text, or output that is not a PNG and a marker in the combined text. *)
Inductive refused (E : Env) (r : CompletedProcess) : Prop :=
| refused_empty :
    stdout_bytes_of r = [] ->
    has_marker (stderr_text_of E r) = true ->
    refused E r
| refused_not_png :
    stdout_bytes_of r <> [] ->
    startswith (stdout_bytes_of r) png_magic = false ->
    has_marker (combined_text_of E r) = true ->
    refused E r.

(** An attempt that is retried, with the error it records: the call
    raised an [Exception], or gave no output and no marker, or gave
    output that is not a PNG and no marker. *)
Inductive retried (E : Env) : PyExc + CompletedProcess -> PyExc -> Prop :=
| retried_raise e :
    is_Exception e = true ->
    retried E (inl e) e
| retried_empty r :
    stdout_bytes_of r = [] ->
    has_marker (stderr_text_of E r) = false ->
    retried E (inr r) (RuntimeError "empty screenshot output")
| retried_not_png r :
    stdout_bytes_of r <> [] ->
    startswith (stdout_bytes_of r) png_magic = false ->
    has_marker (combined_text_of E r) = false ->
    retried E (inr r) (RuntimeError "screenshot output is not PNG").

(** The response to the [i]-th attempt of a capture started in [w]. *)
Definition response (E : Env) (device_id : option string) (timeout : Z)
    (w : World) (i : nat) : PyExc + CompletedProcess :=
  subprocess_run E (i + List.length (spawned w))%nat
    (screencap_command device_id) timeout.

(** The world after [k] more attempts, and after some more printed
    lines. *)
Definition spawns (device_id : option string) (timeout : Z) (k : nat)
    (w : World) : World :=
  mkWorld (spawned w ++ repeat (screencap_command device_id, timeout) k)%list
          (printed w).

Definition prints (lines : list string) (w : World) : World :=
  mkWorld (spawned w) (printed w ++ lines)%list.

Definition warn_line (e : PyExc) : string :=
  "Screenshot warn: exec-out failed after retry: " ++ exc_str e.

Definition error_line (e : PyExc) : string :=
  "Screenshot error: " ++ exc_str e.

(** The black image of the fallback and the record built around its
    encoding [png]. *)
Definition black_image : Image := Image_new "RGB" (1080, 2400) black.

Definition placeholder (png : bytes) (flag : bool) : Screenshot :=
  mkScreenshot (Base64.b64encode png) 1080 2400 flag.

Definition all_black (img : Image) : Prop :=
  Forall (Forall (fun px => px = black)) (im_rows img).

(** What the fallback and one attempt come to, as functions of the
    collaborators' answers (the world aside). *)
Definition fallback_outcome (E : Env) (flag : bool) : Outcome Screenshot :=
  match Image_save_png E black_image with
  | inl e => Raised e
  | inr png => Normal (placeholder png flag)
  end.

Definition returning (o : Outcome Screenshot) : Outcome Flow :=
  match o with
  | Normal s => Normal (Return s)
  | Raised e => Raised e
  end.

Definition attempt_outcome (E : Env) (resp : PyExc + CompletedProcess)
  : Outcome Flow :=
  match resp with
  | inl e => if is_Exception e then Normal (Continue (Some e)) else Raised e
  | inr r =>
      if negb (bytes_truthy (stdout_bytes_of r)) then
        if has_marker (stderr_text_of E r)
        then returning (fallback_outcome E true)
        else Normal (Continue (Some (RuntimeError "empty screenshot output")))
      else if negb (startswith (stdout_bytes_of r) png_magic) then
        if has_marker (combined_text_of E r)
        then returning (fallback_outcome E true)
        else Normal (Continue (Some (RuntimeError "screenshot output is not PNG")))
      else
        match Image_open E (stdout_bytes_of r) with
        | inl e => Raised e
        | inr img =>
            Normal (Return (mkScreenshot (Base64.b64encode (stdout_bytes_of r))
                              (fst (im_size img)) (snd (im_size img)) false))
        end
  end.

(** What the outer handler makes of an exception raised in world [w]:
    the error line is printed and the fallback built, unless the
    exception is not an [Exception] or the print raises. *)
Definition handled (E : Env) (e : PyExc) (w : World)
  : Outcome Screenshot * World :=
  if is_Exception e
  then match print_raises E (error_line e) with
       | Some e' => (Raised e', w)
       | None => (fallback_outcome E false, prints [error_line e] w)
       end
  else (Raised e, w).

(** What leaves the statements after the loop when [last_error] is [e]:
    [e] itself after the warning line, or what the print raised. *)
Definition warned (E : Env) (e : PyExc) (w : World) : PyExc * World :=
  match print_raises E (warn_line e) with
  | Some e' => (e', w)
  | None => (e, prints [warn_line e] w)
  end.

(** The loop, the statements inside the outer [try] and the whole
    capture as functions of the two responses. *)
Definition loop_outcome (E : Env) (device_id : option string)
    (timeout : Z) (w : World) : Outcome Flow * World :=
  match attempt_outcome E (response E device_id timeout w 0) with
  | Normal (Continue _) =>
      (attempt_outcome E (response E device_id timeout w 1),
       spawns device_id timeout 2 w)
  | o => (o, spawns device_id timeout 1 w)
  end.

(** The exception parts of [warned] and the result part of [handled]:
    neither depends on the world. *)
Definition warned_exc (E : Env) (e : PyExc) : PyExc :=
  match print_raises E (warn_line e) with
  | Some e' => e'
  | None => e
  end.

Definition handled_result (E : Env) (e : PyExc) : Outcome Screenshot :=
  if is_Exception e
  then match print_raises E (error_line e) with
       | Some e' => Raised e'
       | None => fallback_outcome E false
       end
  else Raised e.

Definition body_outcome (E : Env) (device_id : option string)
    (timeout : Z) (w : World) : Outcome Screenshot * World :=
  match loop_outcome E device_id timeout w with
  | (Normal (Return s), w') => (Normal s, w')
  | (Normal (Continue (Some e)), w') =>
      let (e', w'') := warned E e w' in (Raised e', w'')
  | (Normal (Continue None), w') => (fallback_outcome E false, w')
  | (Raised e, w') => (Raised e, w')
  end.

Definition capture_outcome (E : Env) (device_id : option string)
    (timeout : Z) (w : World) : Outcome Screenshot * World :=
  match body_outcome E device_id timeout w with
  | (Normal s, w') => (Normal s, w')
  | (Raised e, w') => handled E e w'
  end.

(** The same collaborators with another transport. *)
Definition with_transport (E : Env)
    (run : nat -> list string -> Z -> PyExc + CompletedProcess) : Env :=
  mkEnv run (bytes_decode E) (Image_open E) (Image_save_png E)
    (print_raises E).

(** Two responses carry the same streams: the same exception, or
    completed processes with the same effective stdout and stderr bytes
    (a missing stream counting as an empty one), whatever the exit
    status. *)
Definition same_streams (a b : PyExc + CompletedProcess) : Prop :=
  match a, b with
  | inl e1, inl e2 => e1 = e2
  | inr r1, inr r2 =>
      stdout_bytes_of r1 = stdout_bytes_of r2 /\
      bytes_or (stderr r1) [] = bytes_or (stderr r2) []
  | _, _ => False
  end.

(* ------------------------------------------------------------------ *)
(** ** Collaborators for the examples *)

(** A decoder for ASCII input: bytes from 0x80 on are dropped, which is
    what the UTF-8 decoder with [errors="ignore"] does to them when they
    form no valid sequence. *)
Fixpoint ascii_decode_ignore (b : bytes) : string :=
  match b with
  | [] => EmptyString
  | x :: b' =>
      if (Byte.to_N x <? 128)%N
      then String (ascii_of_byte x) (ascii_decode_ignore b')
      else ascii_decode_ignore b'
  end.

Definition encode_ascii (s : string) : bytes := list_byte_of_string s.

(** Four bytes, most significant first. *)
Definition be32 (z : Z) : bytes :=
  map (fun k => match Byte.of_N (Z.to_N ((z / 256 ^ k) mod 256)) with
                | Some b => b
                | None => x00
                end) [3; 2; 1; 0].

Definition of_be32 (b : bytes) : Z :=
  fold_left (fun acc x => acc * 256 + Z.of_N (Byte.to_N x)) b 0.

(** A codec that keeps the size only: the file is the magic bytes and the
    two dimensions, and every decoded pixel is black. *)
Definition header_save (img : Image) : PyExc + bytes :=
  inr (png_magic ++ be32 (fst (im_size img)) ++ be32 (snd (im_size img)))%list.

Definition header_open (b : bytes) : PyExc + Image :=
  if startswith b png_magic && (List.length b =? 16)%nat then
    let dims := skipn 8 b in
    inr (Image_new "RGB" (of_be32 (firstn 4 dims), of_be32 (skipn 4 dims)) black)
  else inl (mkExc UnidentifiedImageError "cannot identify image file").

(** A transport that plays a script; past its end adb is not found. *)
Definition scripted (script : list (PyExc + CompletedProcess))
  : nat -> list string -> Z -> PyExc + CompletedProcess :=
  fun n _ _ => nth n script (inl (mkExc FileNotFoundError "adb")).

(** A standard output that takes every line. *)
Definition open_stdout (line : string) : option PyExc := None.

Definition demo_env (script : list (PyExc + CompletedProcess)) : Env :=
  mkEnv (scripted script) ascii_decode_ignore header_open header_save
    open_stdout.

Definition completed (out err : bytes) : PyExc + CompletedProcess :=
  inr (mkCompleted 0 (Some out) (Some err)).

Definition timed_out : PyExc + CompletedProcess :=
  inl (mkExc TimeoutExpired "Command timed out after 60 seconds").

Definition interrupted : PyExc + CompletedProcess :=
  inl (mkExc KeyboardInterrupt EmptyString).

Definition secure_stderr : bytes :=
  encode_ascii "screencap: Status: -1, secure layer".

Definition failed_stdout : bytes :=
  encode_ascii "Error: Failed to take screenshot".

Definition tiny_png : bytes := (png_magic ++ be32 720 ++ be32 1280)%list.

Definition w0 : World := mkWorld [] [].

(** A codec whose encoder is not available. *)
Definition broken_save (img : Image) : PyExc + bytes :=
  inl (mkExc OSError "encoder zip not available").

Definition broken_env (script : list (PyExc + CompletedProcess)) : Env :=
  mkEnv (scripted script) ascii_decode_ignore header_open broken_save
    open_stdout.

(** A codec that loses nothing: the file is the magic bytes followed by
    the mode, the two dimensions and the rows of pixels, each list with
    its length first; numbers are written in unary. *)
Module RawCodec.

Definition enc_nat (n : nat) : bytes := (repeat x01 n ++ [x00])%list.

Fixpoint dec_nat (b : bytes) : option (nat * bytes) :=
  match b with
  | x00 :: rest => Some (O, rest)
  | x01 :: rest =>
      match dec_nat rest with
      | Some (n, rest') => Some (S n, rest')
      | None => None
      end
  | _ => None
  end.

Definition enc_Z (z : Z) : bytes :=
  ((if z <? 0 then x01 else x00) :: enc_nat (Z.abs_nat z))%list.

Definition dec_Z (b : bytes) : option (Z * bytes) :=
  match b with
  | sign :: rest =>
      match dec_nat rest with
      | Some (n, rest') =>
          Some (if Byte.eqb sign x01 then - Z.of_nat n else Z.of_nat n, rest')
      | None => None
      end
  | [] => None
  end.

Fixpoint dec_list {A : Type} (dec : bytes -> option (A * bytes)) (n : nat)
    (b : bytes) : option (list A * bytes) :=
  match n with
  | O => Some ([], b)
  | S n' =>
      match dec b with
      | Some (a, rest) =>
          match dec_list dec n' rest with
          | Some (l, rest') => Some (a :: l, rest')
          | None => None
          end
      | None => None
      end
  end.

Definition enc_list {A : Type} (enc : A -> bytes) (l : list A) : bytes :=
  (enc_nat (List.length l) ++ flat_map enc l)%list.

Definition dec_counted {A : Type} (dec : bytes -> option (A * bytes))
    (b : bytes) : option (list A * bytes) :=
  match dec_nat b with
  | Some (n, rest) => dec_list dec n rest
  | None => None
  end.

Definition enc_byte (x : byte) : bytes := [x].

Definition dec_byte (b : bytes) : option (byte * bytes) :=
  match b with
  | x :: rest => Some (x, rest)
  | [] => None
  end.

Definition enc_px (px : RGB) : bytes :=
  let '(r, g, b) := px in [r; g; b].

Definition dec_px (b : bytes) : option (RGB * bytes) :=
  match b with
  | r :: g :: b' :: rest => Some ((r, g, b'), rest)
  | _ => None
  end.

Definition enc_string (s : string) : bytes :=
  enc_list enc_byte (list_byte_of_string s).

Definition dec_string (b : bytes) : option (string * bytes) :=
  match dec_counted dec_byte b with
  | Some (l, rest) => Some (string_of_list_byte l, rest)
  | None => None
  end.

Definition encode (img : Image) : bytes :=
  (png_magic ++ enc_string (im_mode img) ++
   enc_Z (fst (im_size img)) ++ enc_Z (snd (im_size img)) ++
   enc_list (enc_list enc_px) (im_rows img))%list.

Definition decode_body (b : bytes) : option Image :=
  match dec_string b with
  | Some (mode, b1) =>
      match dec_Z b1 with
      | Some (wd, b2) =>
          match dec_Z b2 with
          | Some (ht, b3) =>
              match dec_counted (dec_counted dec_px) b3 with
              | Some (rows, []) => Some (mkImage mode (wd, ht) rows)
              | _ => None
              end
          | None => None
          end
      | None => None
      end
  | None => None
  end.

Definition save (img : Image) : PyExc + bytes := inr (encode img).

Definition open (b : bytes) : PyExc + Image :=
  match (if startswith b png_magic then decode_body (skipn 8 b) else None) with
  | Some img => inr img
  | None => inl (mkExc UnidentifiedImageError "cannot identify image file")
  end.

End RawCodec.

Definition raw_env (script : list (PyExc + CompletedProcess)) : Env :=
  mkEnv (scripted script) ascii_decode_ignore RawCodec.open RawCodec.save
    open_stdout.

(** A standard output that was closed: every [print] raises. *)
Definition closed_stdout (line : string) : option PyExc :=
  Some (mkExc (OtherException "ValueError") "I/O operation on closed file.").

Definition closed_stdout_env (script : list (PyExc + CompletedProcess))
  : Env :=
  mkEnv (scripted script) ascii_decode_ignore header_open header_save
    closed_stdout.

(** A standard output that cannot encode the lines that start with the
    warning prefix (a stand-in for a line with a character outside the
    stream's encoding). *)
Definition warn_shy_stdout (line : string) : option PyExc :=
  if String.prefix "Screenshot warn" line
  then Some (mkExc (OtherException "UnicodeEncodeError")
               "codec can't encode character")
  else None.

Definition warn_shy_env (script : list (PyExc + CompletedProcess)) : Env :=
  mkEnv (scripted script) ascii_decode_ignore header_open header_save
    warn_shy_stdout.

(* ================================================================== *)
(** * Properties *)

Example b64encode_Man :
  Base64.b64encode [x4d; x61; x6e] = "TWFu".
Proof. reflexivity. Qed.

Example b64encode_Ma :
  Base64.b64encode [x4d; x61] = "TWE=".
Proof. reflexivity. Qed.

Example b64encode_M :
  Base64.b64encode [x4d] = "TQ==".
Proof. reflexivity. Qed.

Example b64encode_png_magic :
  Base64.b64encode png_magic = "iVBORw0KGgo=".
Proof. reflexivity. Qed.

Example b64decode_png_magic :
  Base64.b64decode "iVBORw0KGgo=" = Some png_magic.
Proof. reflexivity. Qed.

Example header_codec_black :
  header_save black_image = inr (png_magic ++ be32 1080 ++ be32 2400)%list /\
  header_open (png_magic ++ be32 1080 ++ be32 2400)%list = inr black_image.
Proof. split; reflexivity. Qed.

Example run_secure :
  get_screenshot (demo_env [completed [] secure_stderr]) None 60 w0 =
  (Normal (placeholder (png_magic ++ be32 1080 ++ be32 2400)%list true),
   spawns None 60 1 w0).
Proof. vm_compute. reflexivity. Qed.

Example run_png :
  get_screenshot (demo_env [timed_out; completed tiny_png []]) (Some "emu-1") 60 w0 =
  (Normal (mkScreenshot (Base64.b64encode tiny_png) 720 1280 false),
   spawns (Some "emu-1") 60 2 w0).
Proof. vm_compute. reflexivity. Qed.

Example run_timeouts :
  get_screenshot (demo_env [timed_out; timed_out]) None 60 w0 =
  (Normal (placeholder (png_magic ++ be32 1080 ++ be32 2400)%list false),
   prints
     ["Screenshot warn: exec-out failed after retry: Command timed out after 60 seconds";
      "Screenshot error: Command timed out after 60 seconds"]
     (spawns None 60 2 w0)).
Proof. vm_compute. reflexivity. Qed.

(* ------------------------------------------------------------------ *)
(** ** Running the code *)

Section Running.

Variable E : Env.
Variable device_id : option string.
Variable timeout : Z.

Lemma fallback_run (flag : bool) (w : World) :
  _create_fallback_screenshot E flag w = (fallback_outcome E flag, w).
Proof.
  unfold _create_fallback_screenshot, fallback_outcome, bind, lift, black_image.
  destruct (Image_save_png E _); reflexivity.
Qed.

Lemma attempt_run (last_error : option PyExc) (w : World) :
  attempt E (_get_adb_prefix device_id) timeout last_error w =
  (attempt_outcome E (response E device_id timeout w 0),
   spawns device_id timeout 1 w).
Proof.
  unfold attempt, bind, try_except, run_subprocess, response, spawns,
    screencap_command, attempt_outcome.
  cbn [Nat.add repeat].
  destruct (subprocess_run E _ _ _) as [e | r]; cbn [ret].
  - destruct (is_Exception e); reflexivity.
  - fold (stdout_bytes_of r). fold (stderr_text_of E r).
    destruct (negb (bytes_truthy (stdout_bytes_of r))).
    + unfold has_marker.
      destruct (str_in "Status: -1" (stderr_text_of E r)
                || str_in "Failed" (stderr_text_of E r)); [ | reflexivity ].
      rewrite fallback_run. destruct (fallback_outcome E true); reflexivity.
    + destruct (negb (startswith (stdout_bytes_of r) png_magic)).
      * fold (combined_text_of E r). unfold has_marker.
        destruct (str_in "Status: -1" (combined_text_of E r)
                  || str_in "Failed" (combined_text_of E r)); [ | reflexivity ].
        rewrite fallback_run. destruct (fallback_outcome E true); reflexivity.
      * unfold lift.
        destruct (Image_open E (stdout_bytes_of r)) as [e | img];
          [ reflexivity | ].
        unfold ret. destruct (im_size img); reflexivity.
Qed.

Lemma spawns_spawns (j k : nat) (w : World) :
  spawns device_id timeout j (spawns device_id timeout k w) =
  spawns device_id timeout (k + j) w.
Proof.
  unfold spawns; cbn [spawned printed].
  now rewrite <- app_assoc, repeat_app.
Qed.

Lemma response_spawns (i k : nat) (w : World) :
  response E device_id timeout (spawns device_id timeout k w) i =
  response E device_id timeout w (i + k).
Proof.
  unfold response, spawns; cbn [spawned].
  rewrite length_app, repeat_length.
  f_equal. lia.
Qed.

Lemma loop_run (w : World) :
  for_range 2 (attempt E (_get_adb_prefix device_id) timeout) None w =
  loop_outcome E device_id timeout w.
Proof.
  unfold loop_outcome. cbn [for_range]. unfold bind at 1.
  rewrite attempt_run.
  destruct (attempt_outcome E (response E device_id timeout w 0))
    as [[le0 | s0] | e0]; try reflexivity.
  unfold bind. rewrite attempt_run, response_spawns, spawns_spawns.
  cbn [Nat.add].
  destruct (attempt_outcome E (response E device_id timeout w 1))
    as [[le1 | s1] | e1]; reflexivity.
Qed.

Lemma capture_body_run (w : World) :
  capture_body E (_get_adb_prefix device_id) timeout w =
  body_outcome E device_id timeout w.
Proof.
  unfold capture_body, body_outcome, bind. rewrite loop_run.
  destruct (loop_outcome E device_id timeout w) as [[[[e | ] | s] | e] w'];
    try reflexivity.
  - unfold warned, print, warn_line.
    destruct (print_raises E _); reflexivity.
  - apply fallback_run.
Qed.

Lemma handler_run (e : PyExc) (w : World) :
  is_Exception e = true ->
  (print E ("Screenshot error: " ++ exc_str e) ;;;
   _create_fallback_screenshot E false) w =
  handled E e w.
Proof.
  intros He. unfold handled, bind, print, error_line. rewrite He.
  destruct (print_raises E _); [ reflexivity | ].
  now rewrite fallback_run.
Qed.

Lemma get_screenshot_run (w : World) :
  get_screenshot E device_id timeout w =
  capture_outcome E device_id timeout w.
Proof.
  unfold get_screenshot, capture_outcome, try_except.
  rewrite capture_body_run.
  destruct (body_outcome E device_id timeout w) as [[s | e] w'];
    [ reflexivity | ].
  destruct (is_Exception e) eqn:He.
  - now apply handler_run.
  - unfold handled. now rewrite He.
Qed.

End Running.

(* ------------------------------------------------------------------ *)
(** ** One attempt, case by case *)

Lemma bytes_truthy_false (b : bytes) : bytes_truthy b = false <-> b = [].
Proof. destruct b; simpl; split; congruence. Qed.

Lemma bytes_truthy_true (b : bytes) : bytes_truthy b = true <-> b <> [].
Proof. destruct b; simpl; split; congruence. Qed.

Lemma startswith_magic_nonempty (b : bytes) :
  startswith b png_magic = true -> b <> [].
Proof. destruct b; simpl; congruence. Qed.

Section Attempts.

Variable E : Env.

Lemma retried_outcome resp e :
  retried E resp e -> attempt_outcome E resp = Normal (Continue (Some e)).
Proof.
  intros [e' He | r Hout Hm | r Hout Hpng Hm]; unfold attempt_outcome.
  - now rewrite He.
  - apply bytes_truthy_false in Hout. now rewrite Hout, Hm.
  - apply bytes_truthy_true in Hout. now rewrite Hout, Hpng, Hm.
Qed.

Lemma retried_is_Exception resp e :
  retried E resp e -> is_Exception e = true.
Proof. intros [e' He | r _ _ | r _ _ _]; [ exact He | reflexivity .. ]. Qed.

Lemma refused_outcome r :
  refused E r ->
  attempt_outcome E (inr r) = returning (fallback_outcome E true).
Proof.
  intros [Hout Hm | Hout Hpng Hm]; unfold attempt_outcome.
  - apply bytes_truthy_false in Hout. now rewrite Hout, Hm.
  - apply bytes_truthy_true in Hout. now rewrite Hout, Hpng, Hm.
Qed.

Lemma captured_outcome r img :
  startswith (stdout_bytes_of r) png_magic = true ->
  Image_open E (stdout_bytes_of r) = inr img ->
  attempt_outcome E (inr r) =
  Normal (Return (mkScreenshot (Base64.b64encode (stdout_bytes_of r))
                    (fst (im_size img)) (snd (im_size img)) false)).
Proof.
  intros Hpng Himg. unfold attempt_outcome.
  pose proof (startswith_magic_nonempty _ Hpng) as Hout.
  apply bytes_truthy_true in Hout. now rewrite Hout, Hpng, Himg.
Qed.

(** The cases are exhaustive: what an attempt that continues, and one
    that returns, must have seen. *)
Lemma continue_inv resp le :
  attempt_outcome E resp = Normal (Continue le) ->
  exists e, le = Some e /\ retried E resp e.
Proof.
  unfold attempt_outcome. destruct resp as [e | r].
  - destruct (is_Exception e) eqn:He; [ | discriminate ].
    intros [= <-]. exists e. split; [ reflexivity | now constructor ].
  - destruct (bytes_truthy (stdout_bytes_of r)) eqn:Hout; cbn [negb].
    + apply bytes_truthy_true in Hout.
      destruct (startswith (stdout_bytes_of r) png_magic) eqn:Hpng; cbn [negb].
      * destruct (Image_open E _); discriminate.
      * destruct (has_marker (combined_text_of E r)) eqn:Hm.
        -- destruct (fallback_outcome E true); discriminate.
        -- intros [= <-]. eexists. split; [ reflexivity | now constructor 3 ].
    + apply bytes_truthy_false in Hout.
      destruct (has_marker (stderr_text_of E r)) eqn:Hm.
      * destruct (fallback_outcome E true); discriminate.
      * intros [= <-]. eexists. split; [ reflexivity | now constructor 2 ].
Qed.

Lemma return_inv resp s :
  attempt_outcome E resp = Normal (Return s) ->
  exists r, resp = inr r /\
    ((refused E r /\ is_sensitive s = true) \/
     (startswith (stdout_bytes_of r) png_magic = true /\
      is_sensitive s = false)).
Proof.
  unfold attempt_outcome. destruct resp as [e | r].
  - destruct (is_Exception e); discriminate.
  - intros H. exists r. split; [ reflexivity | ]. revert H.
    destruct (bytes_truthy (stdout_bytes_of r)) eqn:Hout; cbn [negb].
    + apply bytes_truthy_true in Hout.
      destruct (startswith (stdout_bytes_of r) png_magic) eqn:Hpng; cbn [negb].
      * destruct (Image_open E _); [ discriminate | ].
        intros [= <-]. right. split; reflexivity.
      * destruct (has_marker (combined_text_of E r)) eqn:Hm; [ | discriminate ].
        unfold fallback_outcome.
        destruct (Image_save_png E black_image); [ discriminate | ].
        intros [= <-]. left. split; [ now constructor 2 | reflexivity ].
    + apply bytes_truthy_false in Hout.
      destruct (has_marker (stderr_text_of E r)) eqn:Hm; [ | discriminate ].
      unfold fallback_outcome.
      destruct (Image_save_png E black_image); [ discriminate | ].
      intros [= <-]. left. split; [ now constructor 1 | reflexivity ].
Qed.

(** A refused or captured response is not retried. *)
Lemma refused_not_retried r e : refused E r -> ~ retried E (inr r) e.
Proof.
  intros Href Hret. apply refused_outcome in Href.
  apply retried_outcome in Hret. rewrite Hret in Href.
  destruct (fallback_outcome E true); discriminate.
Qed.

Lemma png_not_retried r e :
  startswith (stdout_bytes_of r) png_magic = true -> ~ retried E (inr r) e.
Proof.
  intros Hpng Hret. inversion Hret; subst.
  - apply startswith_magic_nonempty in Hpng. contradiction.
  - congruence.
Qed.

End Attempts.

(* ------------------------------------------------------------------ *)
(** ** Base64: decoding undoes encoding *)

Module Base64Facts.
Import Base64.

Lemma sextet_of_char_of_sextet (s : sextet) :
  sextet_of_char (char_of_sextet s) = Some s.
Proof.
  destruct s as [[[[[b5 b4] b3] b2] b1] b0].
  destruct b5, b4, b3, b2, b1, b0; reflexivity.
Qed.

Lemma char_of_sextet_not_pad (s : sextet) :
  Ascii.eqb (char_of_sextet s) pad = false.
Proof.
  destruct s as [[[[[b5 b4] b3] b2] b1] b0].
  destruct b5, b4, b3, b2, b1, b0; reflexivity.
Qed.

Lemma bytes_of_sextets_of (a b c : byte) :
  let '(s1, s2, s3, s4) := sextets_of a b c in
  bytes_of s1 s2 s3 s4 = (a, b, c).
Proof.
  unfold sextets_of, bytes_of.
  pose proof (Byte.of_bits_to_bits a) as Ha.
  pose proof (Byte.of_bits_to_bits b) as Hb.
  pose proof (Byte.of_bits_to_bits c) as Hc.
  destruct (Byte.to_bits a) as (a0 & a1 & a2 & a3 & a4 & a5 & a6 & a7).
  destruct (Byte.to_bits b) as (b0 & b1 & b2 & b3 & b4 & b5 & b6 & b7).
  destruct (Byte.to_bits c) as (c0 & c1 & c2 & c3 & c4 & c5 & c6 & c7).
  now rewrite <- Ha, <- Hb, <- Hc.
Qed.

Lemma to_bits_x00 :
  Byte.to_bits x00 =
  (false, (false, (false, (false, (false, (false, (false, false))))))).
Proof. reflexivity. Qed.

(** The last group of one byte, and of two. *)
Lemma bytes_of_sextets_of_1 (a : byte) :
  let '(s1, s2, _, _) := sextets_of a x00 x00 in
  let '(a', _, _) := bytes_of s1 s2 zero6 zero6 in
  a' = a.
Proof.
  unfold sextets_of, bytes_of, zero6. rewrite to_bits_x00.
  pose proof (Byte.of_bits_to_bits a) as Ha.
  destruct (Byte.to_bits a) as (a0 & a1 & a2 & a3 & a4 & a5 & a6 & a7).
  exact Ha.
Qed.

Lemma bytes_of_sextets_of_2 (a b : byte) :
  let '(s1, s2, s3, _) := sextets_of a b x00 in
  let '(a', b', _) := bytes_of s1 s2 s3 zero6 in
  a' = a /\ b' = b.
Proof.
  unfold sextets_of, bytes_of, zero6. rewrite to_bits_x00.
  pose proof (Byte.of_bits_to_bits a) as Ha.
  pose proof (Byte.of_bits_to_bits b) as Hb.
  destruct (Byte.to_bits a) as (a0 & a1 & a2 & a3 & a4 & a5 & a6 & a7).
  destruct (Byte.to_bits b) as (b0 & b1 & b2 & b3 & b4 & b5 & b6 & b7).
  split; assumption.
Qed.

Lemma bytes_ind3 (P : bytes -> Prop) :
  P [] ->
  (forall a, P [a]) ->
  (forall a b, P [a; b]) ->
  (forall a b c l, P l -> P (a :: b :: c :: l)) ->
  forall l, P l.
Proof.
  intros H0 H1 H2 H3.
  fix IH 1.
  intros [ | a [ | b [ | c l ] ] ].
  - exact H0.
  - apply H1.
  - apply H2.
  - apply H3, IH.
Qed.

Lemma decode_encode_chars (data : bytes) :
  decode_chars (encode_chars data) = Some data.
Proof.
  induction data as [ | a | a b | a b c rest IH ] using bytes_ind3.
  - reflexivity.
  - cbn [encode_chars].
    pose proof (bytes_of_sextets_of_1 a) as Hb.
    destruct (sextets_of a x00 x00) as [[[s1 s2] s3] s4].
    cbn [decode_chars].
    rewrite !sextet_of_char_of_sextet.
    change (Ascii.eqb pad pad) with true. cbv iota.
    destruct (bytes_of s1 s2 zero6 zero6) as [[a' b'] c'].
    now subst a'.
  - cbn [encode_chars].
    pose proof (bytes_of_sextets_of_2 a b) as Hb.
    destruct (sextets_of a b x00) as [[[s1 s2] s3] s4].
    cbn [decode_chars].
    rewrite !sextet_of_char_of_sextet.
    change (Ascii.eqb pad pad) with true. cbv iota.
    rewrite char_of_sextet_not_pad.
    destruct (bytes_of s1 s2 s3 zero6) as [[a' b'] c'].
    now destruct Hb as [-> ->].
  - cbn [encode_chars].
    pose proof (bytes_of_sextets_of a b c) as Hb.
    destruct (sextets_of a b c) as [[[s1 s2] s3] s4].
    cbn [decode_chars].
    rewrite !sextet_of_char_of_sextet, char_of_sextet_not_pad, IH, Hb.
    reflexivity.
Qed.

Lemma b64decode_b64encode (data : bytes) :
  b64decode (b64encode data) = Some data.
Proof.
  unfold b64decode, b64encode.
  rewrite list_ascii_of_string_of_list_ascii.
  apply decode_encode_chars.
Qed.

End Base64Facts.

(* ------------------------------------------------------------------ *)
(** ** The retry loop *)

Section Capture.

Variable E : Env.
Variable device_id : option string.
Variable timeout : Z.
Variable w : World.

(** The loop stops at attempt [i] when the attempts before it were
    retried and attempt [i] is the last one or does not continue. *)
Lemma loop_outcome_at (i : nat) :
  (i < 2)%nat ->
  (forall j, (j < i)%nat ->
     exists e, retried E (response E device_id timeout w j) e) ->
  (i = 1%nat \/
   forall le,
     attempt_outcome E (response E device_id timeout w i) <>
     Normal (Continue le)) ->
  loop_outcome E device_id timeout w =
  (attempt_outcome E (response E device_id timeout w i),
   spawns device_id timeout (S i) w).
Proof.
  intros Hi Hbefore Hlast. unfold loop_outcome.
  destruct i as [ | [ | i ] ]; [ | | lia ].
  - destruct Hlast as [ | Hlast ]; [ discriminate | ].
    destruct (attempt_outcome E (response E device_id timeout w 0))
      as [[le | s] | e]; try reflexivity.
    now elim (Hlast le).
  - destruct (Hbefore 0%nat) as [e He]; [ lia | ].
    now rewrite (retried_outcome _ _ _ He).
Qed.

Lemma prints_prints (l1 l2 : list string) (w' : World) :
  prints l2 (prints l1 w') = prints (l1 ++ l2) w'.
Proof. unfold prints; cbn [spawned printed]. now rewrite <- app_assoc. Qed.

End Capture.

Lemma stdout_bytes_of_some (r : CompletedProcess) (out : bytes) :
  stdout r = Some out -> out <> [] -> stdout_bytes_of r = out.
Proof.
  unfold stdout_bytes_of, bytes_or. intros -> Hne.
  apply bytes_truthy_true in Hne. now rewrite Hne.
Qed.

(* ------------------------------------------------------------------ *)
(** ** Properties of [get_screenshot] *)

(** C2.  An attempt reached by the loop whose process gave no output and
    a stderr text with "Status: -1" or "Failed", or gave output that does
    not start with the PNG magic bytes and a combined text (stderr text
    followed by the decoded output) with one of them, ends the capture at
    once: the result is the 1080x2400 placeholder with [is_sensitive]
    true, and no further process is spawned. *)
Theorem refusal_gives_sensitive_placeholder
    (E : Env) (device_id : option string) (timeout : Z) (w : World)
    (i : nat) (r : CompletedProcess) (png : bytes) :
  (i < 2)%nat ->
  (forall j, (j < i)%nat ->
     exists e, retried E (response E device_id timeout w j) e) ->
  response E device_id timeout w i = inr r ->
  (stdout_bytes_of r = [] /\ has_marker (stderr_text_of E r) = true) \/
  (stdout_bytes_of r <> [] /\
   startswith (stdout_bytes_of r) png_magic = false /\
   has_marker (combined_text_of E r) = true) ->
  Image_save_png E black_image = inr png ->
  get_screenshot E device_id timeout w =
    (Normal (mkScreenshot (Base64.b64encode png) 1080 2400 true),
     spawns device_id timeout (S i) w).
Proof.
  intros Hi Hbefore Hresp Hcase Hsave.
  assert (Href : refused E r).
  { destruct Hcase as [[H1 H2] | (H1 & H2 & H3)];
      [ now constructor 1 | now constructor 2 ]. }
  assert (Hout : attempt_outcome E (response E device_id timeout w i) =
                 Normal (Return (placeholder png true))).
  { rewrite Hresp, (refused_outcome _ _ Href).
    unfold fallback_outcome. now rewrite Hsave. }
  rewrite get_screenshot_run. unfold capture_outcome, body_outcome.
  rewrite (loop_outcome_at E device_id timeout w i Hi Hbefore).
  - now rewrite Hout.
  - right. intros le. rewrite Hout. discriminate.
Qed.

(** C3.  An attempt reached by the loop whose output starts with the PNG
    magic bytes and decodes as an image ends the capture: [is_sensitive]
    is false, [width] and [height] are those of the decoded image, and
    [base64_data] is the base64 text of the raw output. *)
Theorem png_output_gives_real_screenshot
    (E : Env) (device_id : option string) (timeout : Z) (w : World)
    (i : nat) (r : CompletedProcess) (out : bytes) (img : Image) :
  (i < 2)%nat ->
  (forall j, (j < i)%nat ->
     exists e, retried E (response E device_id timeout w j) e) ->
  response E device_id timeout w i = inr r ->
  stdout r = Some out ->
  startswith out png_magic = true ->
  Image_open E out = inr img ->
  get_screenshot E device_id timeout w =
    (Normal (mkScreenshot (Base64.b64encode out)
               (fst (im_size img)) (snd (im_size img)) false),
     spawns device_id timeout (S i) w).
Proof.
  intros Hi Hbefore Hresp Hstdout Hpng Himg.
  assert (Hbytes : stdout_bytes_of r = out).
  { apply stdout_bytes_of_some; [ assumption | ].
    now apply startswith_magic_nonempty. }
  assert (Hout : attempt_outcome E (response E device_id timeout w i) =
                 Normal (Return (mkScreenshot (Base64.b64encode out)
                   (fst (im_size img)) (snd (im_size img)) false))).
  { rewrite Hresp, (captured_outcome E r img); rewrite Hbytes; auto. }
  rewrite get_screenshot_run. unfold capture_outcome, body_outcome.
  rewrite (loop_outcome_at E device_id timeout w i Hi Hbefore).
  - now rewrite Hout.
  - right. intros le. rewrite Hout. discriminate.
Qed.


Lemma refusal_gives_sensitive_placeholder_witness :
  get_screenshot (demo_env [timed_out; completed failed_stdout []])
    (Some "emulator-5554") 60 w0 =
  (Normal (mkScreenshot
             (Base64.b64encode (png_magic ++ be32 1080 ++ be32 2400)%list)
             1080 2400 true),
   spawns (Some "emulator-5554") 60 2 w0).
Proof.
  apply (refusal_gives_sensitive_placeholder
           (demo_env [timed_out; completed failed_stdout []])
           (Some "emulator-5554") 60 w0 1
           (mkCompleted 0 (Some failed_stdout) (Some []))).
  - lia.
  - intros j Hj. assert (j = 0%nat) as -> by lia.
    eexists. apply retried_raise. reflexivity.
  - reflexivity.
  - right. split; [ discriminate | split; reflexivity ].
  - reflexivity.
Defined.

Lemma png_output_gives_real_screenshot_witness :
  get_screenshot (demo_env [completed tiny_png []]) None 60 w0 =
  (Normal (mkScreenshot (Base64.b64encode tiny_png) 720 1280 false),
   spawns None 60 1 w0).
Proof.
  apply (png_output_gives_real_screenshot
           (demo_env [completed tiny_png []]) None 60 w0 0
           (mkCompleted 0 (Some tiny_png) (Some [])) tiny_png
           (Image_new "RGB" (720, 1280) black)).
  - lia.
  - intros j Hj. lia.
  - reflexivity.
  - reflexivity.
  - reflexivity.
  - reflexivity.
Defined.


(* ------------------------------------------------------------------ *)
(** ** Where the sensitive flag comes from, and how often adb runs *)

Lemma fallback_outcome_flag (E : Env) (flag : bool) (s : Screenshot) :
  fallback_outcome E flag = Normal s -> is_sensitive s = flag.
Proof.
  unfold fallback_outcome.
  destruct (Image_save_png E black_image); [ discriminate | ].
  now intros [= <-].
Qed.

Lemma fallback_outcome_raised (E : Env) (flag flag' : bool) (e : PyExc) :
  fallback_outcome E flag = Raised e -> fallback_outcome E flag' = Raised e.
Proof.
  unfold fallback_outcome.
  destruct (Image_save_png E black_image); [ | discriminate ].
  now intros [= <-].
Qed.

Lemma handled_normal_inv (E : Env) (e : PyExc) (w w' : World)
    (s : Screenshot) :
  handled E e w = (Normal s, w') ->
  is_Exception e = true /\
  print_raises E (error_line e) = None /\
  fallback_outcome E false = Normal s /\
  w' = prints [error_line e] w.
Proof.
  unfold handled. destruct (is_Exception e); [ | discriminate ].
  destruct (print_raises E (error_line e)); [ discriminate | ].
  intros [= H <-]. auto.
Qed.

Lemma handled_not_sensitive (E : Env) (e : PyExc) (w w' : World)
    (s : Screenshot) :
  handled E e w = (Normal s, w') -> is_sensitive s = false.
Proof.
  intros H. apply handled_normal_inv in H as (_ & _ & H & _).
  now apply fallback_outcome_flag in H.
Qed.

Lemma handled_spawned (E : Env) (e : PyExc) (w : World) :
  spawned (snd (handled E e w)) = spawned w.
Proof.
  unfold handled. destruct (is_Exception e); [ | reflexivity ].
  now destruct (print_raises E (error_line e)).
Qed.

Lemma warned_spawned (E : Env) (e : PyExc) (w : World) :
  spawned (snd (warned E e w)) = spawned w.
Proof. unfold warned. now destruct (print_raises E (warn_line e)). Qed.

(** The capture when a reached attempt is refused. *)
Lemma capture_outcome_refused
    (E : Env) (device_id : option string) (timeout : Z) (w : World)
    (i : nat) (r : CompletedProcess) :
  (i < 2)%nat ->
  (forall j, (j < i)%nat ->
     exists e, retried E (response E device_id timeout w j) e) ->
  response E device_id timeout w i = inr r ->
  refused E r ->
  capture_outcome E device_id timeout w =
  match fallback_outcome E true with
  | Normal s => (Normal s, spawns device_id timeout (S i) w)
  | Raised e => handled E e (spawns device_id timeout (S i) w)
  end.
Proof.
  intros Hi Hbefore Hresp Href.
  unfold capture_outcome, body_outcome.
  rewrite (loop_outcome_at E device_id timeout w i Hi Hbefore).
  - rewrite Hresp, (refused_outcome _ _ Href).
    now destruct (fallback_outcome E true).
  - right. intros le. rewrite Hresp, (refused_outcome _ _ Href).
    destruct (fallback_outcome E true); discriminate.
Qed.

(** C5.  A returned result has [is_sensitive] true exactly when some
    attempt reached by the loop was refused, that is, carried a refusal
    marker in its stderr text (no output) or in its combined text (output
    that is not a PNG); every other returned result has the flag false. *)
Theorem sensitive_iff_refusal_marker
    (E : Env) (device_id : option string) (timeout : Z) (w w' : World)
    (s : Screenshot) :
  get_screenshot E device_id timeout w = (Normal s, w') ->
  (is_sensitive s = true <->
   exists i r,
     (i < 2)%nat /\
     (forall j, (j < i)%nat ->
        exists e, retried E (response E device_id timeout w j) e) /\
     response E device_id timeout w i = inr r /\
     refused E r).
Proof.
  intros Hrun. split.
  - intros Hs. revert Hrun. rewrite get_screenshot_run.
    unfold capture_outcome, body_outcome, loop_outcome.
    destruct (attempt_outcome E (response E device_id timeout w 0))
      as [[le0 | s0] | e0] eqn:H0.
    + apply continue_inv in H0 as (e0 & -> & Hret0).
      destruct (attempt_outcome E (response E device_id timeout w 1))
        as [[[e1 | ] | s1] | e1] eqn:H1.
      * destruct (warned E e1 _) as [e1' w1'].
        intros H. apply handled_not_sensitive in H. congruence.
      * destruct (fallback_outcome E false) as [s2 | e2] eqn:Hf.
        -- intros [= <- _]. apply fallback_outcome_flag in Hf. congruence.
        -- intros H. apply handled_not_sensitive in H. congruence.
      * intros [= <- _].
        apply return_inv in H1 as (r & Hresp & [[Href _] | [_ Hfalse]]);
          [ | congruence ].
        exists 1%nat, r. repeat split; try assumption; [ lia | ].
        intros j Hj. assert (j = 0%nat) as -> by lia. now exists e0.
      * intros H. apply handled_not_sensitive in H. congruence.
    + intros [= <- _].
      apply return_inv in H0 as (r & Hresp & [[Href _] | [_ Hfalse]]);
        [ | congruence ].
      exists 0%nat, r. repeat split; try assumption; [ lia | ].
      intros j Hj. lia.
    + intros H. apply handled_not_sensitive in H. congruence.
  - intros (i & r & Hi & Hbefore & Hresp & Href).
    rewrite get_screenshot_run in Hrun.
    rewrite (capture_outcome_refused E device_id timeout w i r) in Hrun
      by assumption.
    destruct (fallback_outcome E true) as [s1 | e1] eqn:Hf.
    + injection Hrun as <- _. now apply fallback_outcome_flag in Hf.
    + apply (fallback_outcome_raised E true false) in Hf.
      apply handled_normal_inv in Hrun as (_ & _ & Hn & _). congruence.
Qed.

Lemma sensitive_iff_refusal_marker_witness :
  is_sensitive
    (mkScreenshot (Base64.b64encode (png_magic ++ be32 1080 ++ be32 2400)%list)
       1080 2400 true) = true <->
  exists i r,
    (i < 2)%nat /\
    (forall j, (j < i)%nat ->
       exists e,
         retried (demo_env [completed [] secure_stderr])
           (response (demo_env [completed [] secure_stderr]) None 60 w0 j) e) /\
    response (demo_env [completed [] secure_stderr]) None 60 w0 i = inr r /\
    refused (demo_env [completed [] secure_stderr]) r.
Proof.
  apply (sensitive_iff_refusal_marker
           (demo_env [completed [] secure_stderr]) None 60 w0
           (spawns None 60 1 w0)).
  reflexivity.
Defined.

(** C6.  A capture spawns the command once or twice, never more: the
    world it leaves has [k] more spawns, all of the same command and
    timeout, with [k] 1 or 2.  A second spawn happens only after a first
    attempt that was retried; a first attempt that is refused or gives
    PNG output is the only one. *)
Theorem at_most_two_spawns
    (E : Env) (device_id : option string) (timeout : Z) (w : World) :
  exists k,
    (1 <= k <= 2)%nat /\
    spawned (snd (get_screenshot E device_id timeout w)) =
      (spawned w ++ repeat (screencap_command device_id, timeout) k)%list /\
    (k = 2%nat ->
       exists e, retried E (response E device_id timeout w 0) e) /\
    (forall r, response E device_id timeout w 0 = inr r ->
       refused E r \/ startswith (stdout_bytes_of r) png_magic = true ->
       k = 1%nat).
Proof.
  rewrite get_screenshot_run.
  unfold capture_outcome, body_outcome, loop_outcome.
  destruct (attempt_outcome E (response E device_id timeout w 0))
    as [[le0 | s0] | e0] eqn:H0.
  - apply continue_inv in H0 as (e0 & -> & Hret0).
    exists 2%nat. split; [ lia | ]. split; [ | split ].
    + destruct (attempt_outcome E (response E device_id timeout w 1))
        as [[[e1 | ] | s1] | e1]; rewrite ?handled_spawned; try reflexivity.
      * pose proof (warned_spawned E e1 (spawns device_id timeout 2 w)) as Hw.
        destruct (warned E e1 _) as [e1' w1']. cbn [snd] in Hw.
        now rewrite handled_spawned, Hw.
      * destruct (fallback_outcome E false); rewrite ?handled_spawned;
          reflexivity.
    + intros _. now exists e0.
    + intros r Hresp [Href | Hpng]; rewrite Hresp in Hret0.
      * now elim (refused_not_retried E r e0).
      * now elim (png_not_retried E r e0).
  - exists 1%nat. split; [ lia | ]. split; [ reflexivity | ].
    split; [ discriminate | reflexivity ].
  - exists 1%nat. split; [ lia | ]. split; [ apply handled_spawned | ].
    split; [ discriminate | reflexivity ].
Qed.

(* ------------------------------------------------------------------ *)
(** ** The result depends on the responses only *)

Lemma fst_handled (E : Env) (e : PyExc) (w : World) :
  fst (handled E e w) = handled_result E e.
Proof.
  unfold handled, handled_result. destruct (is_Exception e); [ | reflexivity ].
  now destruct (print_raises E (error_line e)).
Qed.

Lemma fst_warned (E : Env) (e : PyExc) (w : World) :
  fst (warned E e w) = warned_exc E e.
Proof.
  unfold warned, warned_exc. now destruct (print_raises E (warn_line e)).
Qed.

(** The result of a capture, read off the outcomes of its two attempts. *)
Lemma fst_capture_outcome
    (E : Env) (device_id : option string) (timeout : Z) (w : World) :
  fst (capture_outcome E device_id timeout w) =
  match attempt_outcome E (response E device_id timeout w 0) with
  | Normal (Return s) => Normal s
  | Raised e => handled_result E e
  | Normal (Continue _) =>
      match attempt_outcome E (response E device_id timeout w 1) with
      | Normal (Return s) => Normal s
      | Normal (Continue (Some e)) => handled_result E (warned_exc E e)
      | Raised e => handled_result E e
      | Normal (Continue None) =>
          match fallback_outcome E false with
          | Normal s => Normal s
          | Raised e => handled_result E e
          end
      end
  end.
Proof.
  unfold capture_outcome, body_outcome, loop_outcome.
  destruct (attempt_outcome E (response E device_id timeout w 0))
    as [[le0 | s0] | e0]; [ | reflexivity | apply fst_handled ].
  destruct (attempt_outcome E (response E device_id timeout w 1))
    as [[[e1 | ] | s1] | e1];
    [ | | reflexivity | apply fst_handled ].
  - rewrite <- (fst_warned E e1 (spawns device_id timeout 2 w)).
    destruct (warned E e1 _) as [e1' w1']. apply fst_handled.
  - destruct (fallback_outcome E false) as [s | e] eqn:Hf; [ reflexivity | ].
    apply fst_handled.
Qed.

(** C8.  Two captures with the same device id and timeout, the same
    codecs, and transports that answer the two attempts alike (the same
    completed process or the same exception at each attempt) give the
    same result: the same four fields when a record is returned, the
    same exception otherwise.  What was spawned or printed before does
    not matter. *)
Theorem same_responses_same_result
    (E : Env) (run1 run2 : nat -> list string -> Z -> PyExc + CompletedProcess)
    (device_id : option string) (timeout : Z) (w1 w2 : World) :
  (forall i, (i < 2)%nat ->
     response (with_transport E run1) device_id timeout w1 i =
     response (with_transport E run2) device_id timeout w2 i) ->
  fst (get_screenshot (with_transport E run1) device_id timeout w1) =
  fst (get_screenshot (with_transport E run2) device_id timeout w2).
Proof.
  intros Hsame.
  rewrite !get_screenshot_run, !fst_capture_outcome.
  rewrite (Hsame 0%nat), (Hsame 1%nat) by lia.
  reflexivity.
Qed.

Lemma same_responses_same_result_witness :
  fst (get_screenshot
         (with_transport (demo_env [])
            (scripted [timed_out; completed tiny_png []]))
         None 60 w0) =
  fst (get_screenshot
         (with_transport (demo_env [])
            (scripted [interrupted; timed_out; completed tiny_png []; timed_out]))
         None 60 (prints ["earlier line"] (spawns (Some "other") 5 1 w0))).
Proof.
  apply (same_responses_same_result (demo_env [])
           (scripted [timed_out; completed tiny_png []])
           (scripted [interrupted; timed_out; completed tiny_png []; timed_out])
           None 60 w0 (prints ["earlier line"] (spawns (Some "other") 5 1 w0))).
  intros i Hi.
  destruct i as [ | [ | i ] ]; [ reflexivity | reflexivity | lia ].
Defined.

(* ------------------------------------------------------------------ *)
(** ** After the loop *)

(** C9.  When the loop of two attempts ends without a return, the
    [last_error] slot holds an exception (an instance of [Exception]):
    the branch after the loop that returns the fallback without printing
    is not taken.  The statements inside the outer [try] always raise:
    the recorded error after the warning line, or what printing that
    line raised.  Whenever the capture then returns a record, it is not
    sensitive and an error line was printed last; when both lines can be
    printed they are the warning and the error line of the recorded
    error. *)
Theorem loop_exit_has_last_error
    (E : Env) (device_id : option string) (timeout : Z) (w w' : World)
    (last_error : option PyExc) :
  for_range 2 (attempt E (_get_adb_prefix device_id) timeout) None w =
    (Normal (Continue last_error), w') ->
  exists e,
    last_error = Some e /\
    is_Exception e = true /\
    capture_body E (_get_adb_prefix device_id) timeout w =
      (Raised (fst (warned E e w')), snd (warned E e w')) /\
    get_screenshot E device_id timeout w =
      handled E (fst (warned E e w')) (snd (warned E e w')) /\
    (forall s w'',
       get_screenshot E device_id timeout w = (Normal s, w'') ->
       is_sensitive s = false /\
       exists e2 earlier,
         printed w'' = (printed w' ++ earlier ++ [error_line e2])%list) /\
    (print_raises E (warn_line e) = None ->
     print_raises E (error_line e) = None ->
     capture_body E (_get_adb_prefix device_id) timeout w =
       (Raised e, prints [warn_line e] w') /\
     get_screenshot E device_id timeout w =
       (fallback_outcome E false, prints [warn_line e; error_line e] w')).
Proof.
  intros Hloop.
  rewrite get_screenshot_run, capture_body_run.
  unfold capture_outcome, body_outcome.
  rewrite loop_run in Hloop. rewrite Hloop.
  unfold loop_outcome in Hloop.
  destruct (attempt_outcome E (response E device_id timeout w 0))
    as [[le0 | s0] | e0] eqn:H0; try discriminate.
  injection Hloop as H1 _.
  apply continue_inv in H1 as (e & -> & Hret).
  exists e. pose proof (retried_is_Exception _ _ _ Hret) as He.
  split; [ reflexivity | ]. split; [ assumption | ].
  split; [ now destruct (warned E e w') | ].
  split; [ now destruct (warned E e w') | ].
  split.
  - intros s w'' Hrun.
    assert (Hw : exists earlier,
              printed (snd (warned E e w')) = (printed w' ++ earlier)%list).
    { unfold warned. destruct (print_raises E (warn_line e)).
      - exists []. cbn [snd]. now rewrite app_nil_r.
      - exists [warn_line e]. reflexivity. }
    destruct (warned E e w') as [e1 w1]. cbn [snd] in Hw.
    destruct Hw as [earlier Hw].
    pose proof (handled_not_sensitive _ _ _ _ _ Hrun) as Hs.
    apply handled_normal_inv in Hrun as (_ & _ & _ & ->).
    split; [ assumption | ]. exists e1, earlier.
    cbn [prints printed]. now rewrite Hw, app_assoc.
  - intros Hwarn Herror. unfold warned, handled.
    rewrite Hwarn, He, Herror, prints_prints. split; reflexivity.
Qed.

Lemma loop_exit_has_last_error_witness :
  exists e,
    Some (RuntimeError "screenshot output is not PNG") = Some e /\
    is_Exception e = true /\
    capture_body (warn_shy_env [timed_out; completed (encode_ascii "oops") []])
      (_get_adb_prefix None) 60 w0 =
      (Raised
         (fst (warned
                 (warn_shy_env [timed_out; completed (encode_ascii "oops") []])
                 e (spawns None 60 2 w0))),
       snd (warned
              (warn_shy_env [timed_out; completed (encode_ascii "oops") []])
              e (spawns None 60 2 w0))) /\
    get_screenshot
      (warn_shy_env [timed_out; completed (encode_ascii "oops") []])
      None 60 w0 =
      handled (warn_shy_env [timed_out; completed (encode_ascii "oops") []])
        (fst (warned
                (warn_shy_env [timed_out; completed (encode_ascii "oops") []])
                e (spawns None 60 2 w0)))
        (snd (warned
                (warn_shy_env [timed_out; completed (encode_ascii "oops") []])
                e (spawns None 60 2 w0))) /\
    (forall s w'',
       get_screenshot
         (warn_shy_env [timed_out; completed (encode_ascii "oops") []])
         None 60 w0 = (Normal s, w'') ->
       is_sensitive s = false /\
       exists e2 earlier,
         printed w'' =
           (printed (spawns None 60 2 w0) ++ earlier ++ [error_line e2])%list) /\
    (print_raises
       (warn_shy_env [timed_out; completed (encode_ascii "oops") []])
       (warn_line e) = None ->
     print_raises
       (warn_shy_env [timed_out; completed (encode_ascii "oops") []])
       (error_line e) = None ->
     capture_body (warn_shy_env [timed_out; completed (encode_ascii "oops") []])
       (_get_adb_prefix None) 60 w0 =
       (Raised e, prints [warn_line e] (spawns None 60 2 w0)) /\
     get_screenshot
       (warn_shy_env [timed_out; completed (encode_ascii "oops") []])
       None 60 w0 =
       (fallback_outcome
          (warn_shy_env [timed_out; completed (encode_ascii "oops") []]) false,
        prints [warn_line e; error_line e] (spawns None 60 2 w0))).
Proof.
  apply (loop_exit_has_last_error
           (warn_shy_env [timed_out; completed (encode_ascii "oops") []])
           None 60 w0 (spawns None 60 2 w0)).
  reflexivity.
Defined.

Example run_warn_line_unprintable :
  get_screenshot (warn_shy_env [timed_out; completed (encode_ascii "oops") []])
    None 60 w0 =
  (Normal (placeholder (png_magic ++ be32 1080 ++ be32 2400)%list false),
   prints ["Screenshot error: codec can't encode character"]
     (spawns None 60 2 w0)).
Proof. vm_compute. reflexivity. Qed.

Example run_closed_stdout :
  get_screenshot (closed_stdout_env [timed_out; timed_out]) None 60 w0 =
  (Raised (mkExc (OtherException "ValueError") "I/O operation on closed file."),
   spawns None 60 2 w0).
Proof. vm_compute. reflexivity. Qed.

(* ------------------------------------------------------------------ *)
(** ** The outer boundary *)

Lemma attempt_raised_inv (E : Env) (resp : PyExc + CompletedProcess)
    (e : PyExc) :
  attempt_outcome E resp = Raised e ->
  (resp = inl e /\ is_Exception e = false) \/
  Image_save_png E black_image = inl e \/
  (exists b, Image_open E b = inl e).
Proof.
  unfold attempt_outcome. destruct resp as [e' | r].
  - destruct (is_Exception e') eqn:He; [ discriminate | ].
    intros [= <-]. now left.
  - assert (Hfb : returning (fallback_outcome E true) = Raised e ->
                  Image_save_png E black_image = inl e).
    { unfold fallback_outcome.
      destruct (Image_save_png E black_image); [ | discriminate ].
      now intros [= <-]. }
    destruct (negb (bytes_truthy (stdout_bytes_of r))).
    + destruct (has_marker (stderr_text_of E r)); [ | discriminate ].
      intros H. right. left. now apply Hfb.
    + destruct (negb (startswith (stdout_bytes_of r) png_magic)).
      * destruct (has_marker (combined_text_of E r)); [ | discriminate ].
        intros H. right. left. now apply Hfb.
      * destruct (Image_open E (stdout_bytes_of r)) as [e' | img] eqn:Himg;
          [ | discriminate ].
        intros [= <-]. right. right. now exists (stdout_bytes_of r).
Qed.

Section Boundary.

Variable E : Env.
Variable device_id : option string.
Variable timeout : Z.
Variable png : bytes.

Hypothesis transport_raises_Exception :
  forall n argv tm e,
    subprocess_run E n argv tm = inl e -> is_Exception e = true.
Hypothesis decoder_raises_Exception :
  forall b e, Image_open E b = inl e -> is_Exception e = true.
Hypothesis encoder_succeeds : Image_save_png E black_image = inr png.
Hypothesis print_succeeds : forall line, print_raises E line = None.

Lemma attempt_raises_Exception (resp_n : nat) (w : World) (e : PyExc) :
  attempt_outcome E (response E device_id timeout w resp_n) = Raised e ->
  is_Exception e = true.
Proof.
  intros H. apply attempt_raised_inv in H as [[Hresp He] | [Hsave | [b Hb]]].
  - unfold response in Hresp.
    apply transport_raises_Exception in Hresp. congruence.
  - congruence.
  - now apply decoder_raises_Exception in Hb.
Qed.

Lemma body_raises_Exception (w w1 : World) (e : PyExc) :
  body_outcome E device_id timeout w = (Raised e, w1) ->
  is_Exception e = true.
Proof.
  unfold body_outcome, loop_outcome.
  destruct (attempt_outcome E (response E device_id timeout w 0))
    as [[le0 | s0] | e0] eqn:H0; try discriminate.
  - destruct (attempt_outcome E (response E device_id timeout w 1))
      as [[[e1 | ] | s1] | e1] eqn:H1; try discriminate.
    + apply continue_inv in H1 as (e1' & [= <-] & Hret).
      unfold warned. rewrite print_succeeds.
      intros [= <- _]. now apply retried_is_Exception in Hret.
    + unfold fallback_outcome. rewrite encoder_succeeds. discriminate.
    + intros [= <- _]. now apply attempt_raises_Exception in H1.
  - intros [= <- _]. now apply attempt_raises_Exception in H0.
Qed.

Lemma boundary_converts (w w1 : World) (e : PyExc) :
  capture_body E (_get_adb_prefix device_id) timeout w = (Raised e, w1) ->
  get_screenshot E device_id timeout w =
    (Normal (placeholder png false), prints [error_line e] w1).
Proof.
  rewrite capture_body_run, get_screenshot_run. intros Hbody.
  unfold capture_outcome. rewrite Hbody. unfold handled.
  rewrite (body_raises_Exception _ _ _ Hbody), print_succeeds.
  unfold fallback_outcome. now rewrite encoder_succeeds.
Qed.

End Boundary.

(** C1, as the code has it.  When the transport and the image decoder
    raise only instances of [Exception], the encoding of the black image
    succeeds and [print] does not raise, a capture returns a record and
    raises nothing, and any exception leaving the statements inside the
    outer [try] becomes the 1080x2400 placeholder with [is_sensitive]
    false, after the error line is printed. *)
Theorem capture_absorbs_Exceptions
    (E : Env) (device_id : option string) (timeout : Z) (w : World)
    (png : bytes) :
  (forall n argv tm e,
     subprocess_run E n argv tm = inl e -> is_Exception e = true) ->
  (forall b e, Image_open E b = inl e -> is_Exception e = true) ->
  Image_save_png E black_image = inr png ->
  (forall line, print_raises E line = None) ->
  (exists s w', get_screenshot E device_id timeout w = (Normal s, w')) /\
  (forall e w1,
     capture_body E (_get_adb_prefix device_id) timeout w = (Raised e, w1) ->
     get_screenshot E device_id timeout w =
       (Normal (mkScreenshot (Base64.b64encode png) 1080 2400 false),
        prints [error_line e] w1)).
Proof.
  intros Hrun Hopen Hsave Hprint. split.
  - destruct (capture_body E (_get_adb_prefix device_id) timeout w)
      as [[s | e] w1] eqn:Hbody.
    + exists s, w1. rewrite get_screenshot_run. unfold capture_outcome.
      rewrite capture_body_run in Hbody. now rewrite Hbody.
    + eexists _, _.
      apply (boundary_converts E device_id timeout png
               Hrun Hopen Hsave Hprint).
      exact Hbody.
  - intros e w1.
    apply (boundary_converts E device_id timeout png Hrun Hopen Hsave Hprint).
Qed.

Lemma demo_transport_raises_Exception
    (out : bytes) (n : nat) (argv : list string) (tm : Z) (e : PyExc) :
  subprocess_run (demo_env [timed_out; completed out []]) n argv tm = inl e ->
  is_Exception e = true.
Proof.
  destruct n as [ | [ | [ | n ] ] ]; cbn; intros [= <-]; reflexivity.
Qed.

Lemma header_open_raises_Exception (b : bytes) (e : PyExc) :
  header_open b = inl e -> is_Exception e = true.
Proof.
  unfold header_open.
  destruct (startswith b png_magic && (List.length b =? 16)%nat);
    [ discriminate | ].
  now intros [= <-].
Qed.

Lemma capture_absorbs_Exceptions_witness :
  (exists s w',
     get_screenshot (demo_env [timed_out; completed png_magic []])
       (Some "emulator-5554") 60 w0 = (Normal s, w')) /\
  (forall e w1,
     capture_body (demo_env [timed_out; completed png_magic []])
       (_get_adb_prefix (Some "emulator-5554")) 60 w0 = (Raised e, w1) ->
     get_screenshot (demo_env [timed_out; completed png_magic []])
       (Some "emulator-5554") 60 w0 =
       (Normal (mkScreenshot
                  (Base64.b64encode (png_magic ++ be32 1080 ++ be32 2400)%list)
                  1080 2400 false),
        prints [error_line e] w1)).
Proof.
  apply (capture_absorbs_Exceptions
           (demo_env [timed_out; completed png_magic []])
           (Some "emulator-5554") 60 w0).
  - apply demo_transport_raises_Exception.
  - apply header_open_raises_Exception.
  - reflexivity.
  - intros line. reflexivity.
Defined.

Example run_truncated_png :
  get_screenshot (demo_env [timed_out; completed png_magic []])
    (Some "emulator-5554") 60 w0 =
  (Normal (placeholder (png_magic ++ be32 1080 ++ be32 2400)%list false),
   prints ["Screenshot error: cannot identify image file"]
     (spawns (Some "emulator-5554") 60 2 w0)).
Proof. vm_compute. reflexivity. Qed.

(** C1, as the claim has it, fails.  A [KeyboardInterrupt] raised by the
    transport is not an instance of [Exception] and passes both handlers;
    when the encoder of the black image raises, the fallback built in
    the outer handler raises to the caller; and when the standard output
    is closed, the [print] of the outer handler raises to the caller. *)
Lemma capture_can_raise :
  get_screenshot (demo_env [interrupted]) None 60 w0 =
    (Raised (mkExc KeyboardInterrupt EmptyString), spawns None 60 1 w0) /\
  get_screenshot (broken_env [timed_out; timed_out]) None 60 w0 =
    (Raised (mkExc OSError "encoder zip not available"),
     prints
       ["Screenshot warn: exec-out failed after retry: Command timed out after 60 seconds";
        "Screenshot error: Command timed out after 60 seconds"]
       (spawns None 60 2 w0)) /\
  get_screenshot (closed_stdout_env [completed png_magic []]) None 60 w0 =
    (Raised (mkExc (OtherException "ValueError")
               "I/O operation on closed file."),
     spawns None 60 1 w0).
Proof. repeat split; vm_compute; reflexivity. Qed.

(* ------------------------------------------------------------------ *)
(** ** The fallback image *)

Lemma black_image_all_black : all_black black_image.
Proof.
  unfold all_black, black_image, Image_new; cbn [im_rows].
  apply Forall_forall. intros row Hrow. apply repeat_spec in Hrow. subst row.
  apply Forall_forall. intros px Hpx. now apply repeat_spec in Hpx.
Qed.

Lemma black_image_rows :
  im_rows black_image = repeat (repeat black 1080%nat) 2400%nat.
Proof. reflexivity. Qed.

(** The lossless example codec reads back what it writes. *)
Module RawCodecFacts.
Import RawCodec.

Lemma dec_nat_enc_nat (n : nat) (rest : bytes) :
  dec_nat (enc_nat n ++ rest)%list = Some (n, rest).
Proof.
  unfold enc_nat. induction n as [ | n IH ]; cbn.
  - reflexivity.
  - cbn in IH. now rewrite IH.
Qed.

Lemma dec_Z_enc_Z (z : Z) (rest : bytes) :
  dec_Z (enc_Z z ++ rest)%list = Some (z, rest).
Proof.
  unfold enc_Z, dec_Z. cbn [app]. rewrite dec_nat_enc_nat.
  rewrite Zabs2Nat.id_abs.
  destruct (Z.ltb_spec z 0).
  - change (Byte.eqb x01 x01) with true. cbv iota. do 2 f_equal. lia.
  - change (Byte.eqb x00 x01) with false. cbv iota. do 2 f_equal. lia.
Qed.

Section Lists.

Variable A : Type.
Variable enc : A -> bytes.
Variable dec : bytes -> option (A * bytes).
Hypothesis dec_enc :
  forall a rest, dec (enc a ++ rest)%list = Some (a, rest).

Lemma dec_list_flat_map (l : list A) (rest : bytes) :
  dec_list dec (List.length l) (flat_map enc l ++ rest)%list =
  Some (l, rest).
Proof.
  induction l as [ | a l IH ]; cbn [List.length flat_map dec_list app].
  - reflexivity.
  - now rewrite <- app_assoc, dec_enc, IH.
Qed.

Lemma dec_counted_enc_list (l : list A) (rest : bytes) :
  dec_counted dec (enc_list enc l ++ rest)%list = Some (l, rest).
Proof.
  unfold dec_counted, enc_list.
  now rewrite <- app_assoc, dec_nat_enc_nat, dec_list_flat_map.
Qed.

End Lists.

Lemma dec_byte_enc_byte (x : byte) (rest : bytes) :
  dec_byte (enc_byte x ++ rest)%list = Some (x, rest).
Proof. reflexivity. Qed.

Lemma dec_px_enc_px (px : RGB) (rest : bytes) :
  dec_px (enc_px px ++ rest)%list = Some (px, rest).
Proof. now destruct px as [[r g] b]. Qed.

Lemma dec_string_enc_string (s : string) (rest : bytes) :
  dec_string (enc_string s ++ rest)%list = Some (s, rest).
Proof.
  unfold dec_string, enc_string.
  rewrite (dec_counted_enc_list _ _ _ dec_byte_enc_byte).
  now rewrite string_of_list_byte_of_string.
Qed.

Lemma decode_body_encode (img : Image) :
  decode_body (skipn 8 (encode img)) = Some img.
Proof.
  destruct img as [mode [wd ht] rows].
  unfold encode, decode_body. cbn [im_mode im_size im_rows fst snd].
  change (skipn 8 (png_magic ++ ?x)%list) with x.
  rewrite dec_string_enc_string, !dec_Z_enc_Z.
  rewrite <- (app_nil_r (enc_list (enc_list enc_px) rows)).
  rewrite (dec_counted_enc_list _ _ _
             (dec_counted_enc_list _ _ _ dec_px_enc_px)).
  reflexivity.
Qed.

Lemma open_save (img : Image) (b : bytes) :
  save img = inr b -> open b = inr img.
Proof.
  unfold save, open. intros [= <-].
  assert (Hmagic : startswith (encode img) png_magic = true).
  { unfold encode, png_magic. cbn [app startswith].
    now destruct (enc_string (im_mode img) ++ _)%list. }
  now rewrite Hmagic, decode_body_encode.
Qed.

End RawCodecFacts.

(** C7.  [_create_fallback_screenshot] is a function of its flag: in
    every world, and without changing it, it returns the same record for
    the same flag.  Both records are 1080 wide and 2400 high, carry the
    given flag, and have the same [base64_data], which is the base64 text
    of the PNG encoding of an RGB image of 2400 rows of 1080 pixels, all
    black.  (The encoder is taken to succeed on the black image and the
    decoder to read its output back.) *)
Theorem fallback_is_black_1080x2400 (E : Env) (png : bytes) :
  Image_save_png E black_image = inr png ->
  Image_open E png = inr black_image ->
  exists s_true s_false,
    (forall w, _create_fallback_screenshot E true w = (Normal s_true, w)) /\
    (forall w, _create_fallback_screenshot E false w = (Normal s_false, w)) /\
    (width s_true = 1080 /\ height s_true = 2400 /\
     is_sensitive s_true = true) /\
    (width s_false = 1080 /\ height s_false = 2400 /\
     is_sensitive s_false = false) /\
    base64_data s_true = base64_data s_false /\
    exists raw img,
      Base64.b64decode (base64_data s_true) = Some raw /\
      Image_open E raw = inr img /\
      im_mode img = "RGB" /\
      im_size img = (1080, 2400) /\
      im_rows img = repeat (repeat black 1080%nat) 2400%nat /\
      List.length (im_rows img) = 2400%nat /\
      Forall (fun row =>
                List.length row = 1080%nat /\
                Forall (fun px => px = black) row) (im_rows img).
Proof.
  intros Hsave Hopen.
  exists (placeholder png true), (placeholder png false).
  split; [ | split; [ | split; [ | split; [ | split ] ] ] ].
  - intros w. rewrite fallback_run. unfold fallback_outcome.
    now rewrite Hsave.
  - intros w. rewrite fallback_run. unfold fallback_outcome.
    now rewrite Hsave.
  - repeat split.
  - repeat split.
  - reflexivity.
  - exists png, black_image.
    split; [ apply Base64Facts.b64decode_b64encode | ].
    split; [ exact Hopen | ].
    split; [ reflexivity | ]. split; [ reflexivity | ].
    split; [ apply black_image_rows | ].
    rewrite black_image_rows. split; [ apply repeat_length | ].
    apply Forall_forall. intros row Hrow. apply repeat_spec in Hrow.
    subst row. split; [ apply repeat_length | ].
    apply Forall_forall. intros px Hpx. now apply repeat_spec in Hpx.
Qed.

Lemma fallback_is_black_1080x2400_witness :
  exists s_true s_false,
    (forall w,
       _create_fallback_screenshot (raw_env []) true w = (Normal s_true, w)) /\
    (forall w,
       _create_fallback_screenshot (raw_env []) false w = (Normal s_false, w)) /\
    (width s_true = 1080 /\ height s_true = 2400 /\
     is_sensitive s_true = true) /\
    (width s_false = 1080 /\ height s_false = 2400 /\
     is_sensitive s_false = false) /\
    base64_data s_true = base64_data s_false /\
    exists raw img,
      Base64.b64decode (base64_data s_true) = Some raw /\
      Image_open (raw_env []) raw = inr img /\
      im_mode img = "RGB" /\
      im_size img = (1080, 2400) /\
      im_rows img = repeat (repeat black 1080%nat) 2400%nat /\
      List.length (im_rows img) = 2400%nat /\
      Forall (fun row =>
                List.length row = 1080%nat /\
                Forall (fun px => px = black) row) (im_rows img).
Proof.
  apply (fallback_is_black_1080x2400 (raw_env [])
           (RawCodec.encode black_image)).
  - reflexivity.
  - apply RawCodecFacts.open_save. reflexivity.
Defined.

(* ------------------------------------------------------------------ *)
(** ** The command *)

(** C10.  A non-empty device id [d] gives the prefix "adb", "-s", [d],
    and so the command "adb -s d exec-out screencap -p".  The empty
    device id gives the prefix of no device id, "adb" alone: the two
    captures run the same command and are the same computation. *)
Theorem adb_prefix_selects_device (d : string) :
  d <> EmptyString ->
  _get_adb_prefix (Some d) = ["adb"; "-s"; d] /\
  screencap_command (Some d) =
    ["adb"; "-s"; d; "exec-out"; "screencap"; "-p"] /\
  _get_adb_prefix (Some EmptyString) = ["adb"] /\
  _get_adb_prefix None = ["adb"] /\
  screencap_command (Some EmptyString) = screencap_command None /\
  screencap_command None = ["adb"; "exec-out"; "screencap"; "-p"] /\
  (forall E timeout w,
     get_screenshot E (Some EmptyString) timeout w = get_screenshot E None timeout w).
Proof.
  intros Hd. repeat split.
  - destruct d; [ congruence | reflexivity ].
  - destruct d; [ congruence | reflexivity ].
Qed.

Lemma adb_prefix_selects_device_witness :
  _get_adb_prefix (Some "emulator-5554") = ["adb"; "-s"; "emulator-5554"] /\
  screencap_command (Some "emulator-5554") =
    ["adb"; "-s"; "emulator-5554"; "exec-out"; "screencap"; "-p"] /\
  _get_adb_prefix (Some EmptyString) = ["adb"] /\
  _get_adb_prefix None = ["adb"] /\
  screencap_command (Some EmptyString) = screencap_command None /\
  screencap_command None = ["adb"; "exec-out"; "screencap"; "-p"] /\
  (forall E timeout w,
     get_screenshot E (Some EmptyString) timeout w = get_screenshot E None timeout w).
Proof.
  apply (adb_prefix_selects_device "emulator-5554").
  discriminate.
Defined.

(* ------------------------------------------------------------------ *)
(** ** [str_in] is the substring test *)

Lemma prefix_iff_app (sub s : string) :
  String.prefix sub s = true <-> exists t, s = sub ++ t.
Proof.
  revert s. induction sub as [ | a sub IH ]; intros s.
  - destruct s; simpl; split; eauto.
  - destruct s as [ | b s ]; simpl.
    + split; [ discriminate | intros [t Ht]; discriminate ].
    + destruct (ascii_dec a b) as [-> | Hab].
      * rewrite IH. split; intros [t Ht]; exists t; congruence.
      * split; [ discriminate | intros [t Ht]; congruence ].
Qed.

Lemma str_in_prefix (sub s : string) :
  String.prefix sub s = true -> str_in sub s = true.
Proof. intros H. destruct s; cbn [str_in]; now rewrite H. Qed.

Lemma str_in_iff (sub s : string) :
  str_in sub s = true <-> exists a b, s = a ++ sub ++ b.
Proof.
  split.
  - induction s as [ | c s IH ]; cbn [str_in]; intros H;
      apply orb_true_iff in H as [H | H].
    + apply prefix_iff_app in H as [t Ht]. now exists EmptyString, t.
    + discriminate.
    + apply prefix_iff_app in H as [t Ht]. now exists EmptyString, t.
    + destruct (IH H) as (a & b & ->). now exists (String c a), b.
  - intros (a & b & ->). induction a as [ | c a IH ].
    + apply str_in_prefix, prefix_iff_app. now exists b.
    + cbn [append str_in]. rewrite IH. apply orb_true_r.
Qed.

(* ================================================================== *)
(** * Further properties of the module *)

(** ** Helper facts *)

Lemma startswith_iff (b pre : bytes) :
  startswith b pre = true <-> exists rest, b = (pre ++ rest)%list.
Proof.
  revert b. induction pre as [ | p pre IH ]; intros b.
  - split; [ intros _; now exists b | now destruct b ].
  - destruct b as [ | d b ]; simpl.
    + split; [ discriminate | intros [rest H]; discriminate ].
    + rewrite andb_true_iff, IH. split.
      * intros [Hd [rest ->]]. apply Byte.byte_dec_bl in Hd. subst d.
        now exists rest.
      * intros [rest [= -> ->]]. split; [ now apply Byte.byte_dec_lb | ].
        now exists rest.
Qed.

Lemma stdout_of_nonempty (r : CompletedProcess) :
  stdout_bytes_of r <> [] -> stdout r = Some (stdout_bytes_of r).
Proof.
  unfold stdout_bytes_of, bytes_or.
  destruct (stdout r) as [ [ | x b ] | ]; simpl; congruence.
Qed.

Lemma str_in_app_l (sub a b : string) :
  str_in sub a = true -> str_in sub (a ++ b) = true.
Proof.
  rewrite !str_in_iff. intros (x & y & ->). exists x, (y ++ b).
  induction x as [ | c x IH ]; simpl.
  - induction sub as [ | c' sub IHs ]; simpl; [ reflexivity | now f_equal ].
  - now f_equal.
Qed.

Lemma str_in_app_r (sub a b : string) :
  str_in sub b = true -> str_in sub (a ++ b) = true.
Proof.
  rewrite !str_in_iff. intros (x & y & ->). exists (a ++ x), y.
  induction a as [ | c a IH ]; simpl; [ reflexivity | now f_equal ].
Qed.

Lemma has_marker_app (a b : string) :
  has_marker a = true \/ has_marker b = true -> has_marker (a ++ b) = true.
Proof.
  unfold has_marker. rewrite !orb_true_iff.
  intros [[H | H] | [H | H]];
    auto using str_in_app_l, str_in_app_r.
Qed.

Lemma fallback_outcome_shape (E : Env) (flag : bool) (s : Screenshot) :
  fallback_outcome E flag = Normal s ->
  exists png,
    Image_save_png E black_image = inr png /\ s = placeholder png flag.
Proof.
  unfold fallback_outcome.
  destruct (Image_save_png E black_image) as [e | png]; [ discriminate | ].
  intros [= <-]. now exists png.
Qed.

Lemma handled_shape (E : Env) (e : PyExc) (w w' : World) (s : Screenshot) :
  handled E e w = (Normal s, w') ->
  exists png,
    Image_save_png E black_image = inr png /\ s = placeholder png false.
Proof.
  intros H. apply handled_normal_inv in H as (_ & _ & H & _).
  now apply fallback_outcome_shape.
Qed.

Lemma return_shape (E : Env) (resp : PyExc + CompletedProcess)
    (s : Screenshot) :
  attempt_outcome E resp = Normal (Return s) ->
  (exists png,
     Image_save_png E black_image = inr png /\ s = placeholder png true) \/
  (exists r rest img,
     resp = inr r /\
     stdout r = Some (png_magic ++ rest)%list /\
     Image_open E (png_magic ++ rest)%list = inr img /\
     s = mkScreenshot (Base64.b64encode (png_magic ++ rest)%list)
           (fst (im_size img)) (snd (im_size img)) false).
Proof.
  unfold attempt_outcome. destruct resp as [e | r].
  - destruct (is_Exception e); discriminate.
  - destruct (bytes_truthy (stdout_bytes_of r)) eqn:Hout; cbn [negb].
    + destruct (startswith (stdout_bytes_of r) png_magic) eqn:Hpng;
        cbn [negb].
      * destruct (Image_open E (stdout_bytes_of r)) as [e | img] eqn:Himg;
          [ discriminate | ].
        intros [= <-]. right.
        apply bytes_truthy_true, stdout_of_nonempty in Hout.
        apply startswith_iff in Hpng as [rest Hrest].
        rewrite Hrest in *. now exists r, rest, img.
      * destruct (has_marker (combined_text_of E r)); [ | discriminate ].
        destruct (fallback_outcome E true) as [s' | e] eqn:Hf;
          [ | discriminate ].
        intros [= <-]. left. now apply fallback_outcome_shape.
    + destruct (has_marker (stderr_text_of E r)); [ | discriminate ].
      destruct (fallback_outcome E true) as [s' | e] eqn:Hf;
        [ | discriminate ].
      intros [= <-]. left. now apply fallback_outcome_shape.
Qed.

(** The capture when a reached attempt raises. *)
Lemma capture_outcome_raised
    (E : Env) (device_id : option string) (timeout : Z) (w : World)
    (i : nat) (e : PyExc) :
  (i < 2)%nat ->
  (forall j, (j < i)%nat ->
     exists e', retried E (response E device_id timeout w j) e') ->
  attempt_outcome E (response E device_id timeout w i) = Raised e ->
  capture_outcome E device_id timeout w =
  handled E e (spawns device_id timeout (S i) w).
Proof.
  intros Hi Hbefore Hout.
  unfold capture_outcome, body_outcome.
  rewrite (loop_outcome_at E device_id timeout w i Hi Hbefore).
  - now rewrite Hout.
  - right. intros le. rewrite Hout. discriminate.
Qed.

(* ------------------------------------------------------------------ *)
(** ** What a capture can return, raise and print *)

(** X1.  A record returned by [get_screenshot] has one of two shapes: the
    1080x2400 record around the encoded black image, or a record with
    [is_sensitive] false built from the output of one of the two
    attempts, which begins with the PNG magic bytes and which
    [Image.open] accepted, with the size of that image. *)
Theorem returned_record_shape
    (E : Env) (device_id : option string) (timeout : Z) (w w' : World)
    (s : Screenshot) :
  get_screenshot E device_id timeout w = (Normal s, w') ->
  (exists png flag,
     Image_save_png E black_image = inr png /\
     s = mkScreenshot (Base64.b64encode png) 1080 2400 flag) \/
  (exists i r rest img,
     (i < 2)%nat /\
     response E device_id timeout w i = inr r /\
     stdout r = Some (png_magic ++ rest)%list /\
     Image_open E (png_magic ++ rest)%list = inr img /\
     s = mkScreenshot (Base64.b64encode (png_magic ++ rest)%list)
           (fst (im_size img)) (snd (im_size img)) false).
Proof.
  rewrite get_screenshot_run.
  unfold capture_outcome, body_outcome, loop_outcome.
  assert (Hfb : forall flag s0, fallback_outcome E flag = Normal s0 ->
            exists png flag',
              Image_save_png E black_image = inr png /\
              s0 = mkScreenshot (Base64.b64encode png) 1080 2400 flag').
  { intros flag s0 H. apply fallback_outcome_shape in H as (png & H1 & H2).
    now exists png, flag. }
  assert (Hh : forall e w1, handled E e w1 = (Normal s, w') ->
            exists png flag,
              Image_save_png E black_image = inr png /\
              s = mkScreenshot (Base64.b64encode png) 1080 2400 flag).
  { intros e w1 H. apply handled_shape in H as (png & H1 & H2).
    now exists png, false. }
  assert (Hret : forall i, (i < 2)%nat ->
            attempt_outcome E (response E device_id timeout w i) =
              Normal (Return s) ->
            (exists png flag,
               Image_save_png E black_image = inr png /\
               s = mkScreenshot (Base64.b64encode png) 1080 2400 flag) \/
            (exists i r rest img,
               (i < 2)%nat /\
               response E device_id timeout w i = inr r /\
               stdout r = Some (png_magic ++ rest)%list /\
               Image_open E (png_magic ++ rest)%list = inr img /\
               s = mkScreenshot (Base64.b64encode (png_magic ++ rest)%list)
                     (fst (im_size img)) (snd (im_size img)) false)).
  { intros i Hi H.
    apply return_shape in H
      as [(png & H1 & H2) | (r & rest & img & H1 & H2 & H3 & H4)].
    - left. now exists png, true.
    - right. now exists i, r, rest, img. }
  destruct (attempt_outcome E (response E device_id timeout w 0))
    as [[le0 | s0] | e0] eqn:H0.
  - destruct (attempt_outcome E (response E device_id timeout w 1))
      as [[[e1 | ] | s1] | e1] eqn:H1.
    + destruct (warned E e1 _) as [e1' w1'].
      intros H. left. exact (Hh _ _ H).
    + destruct (fallback_outcome E false) as [s2 | e2] eqn:Hf.
      * intros [= <- _]. left. now apply (Hfb false).
      * intros H. left. exact (Hh _ _ H).
    + intros [= <- _]. apply (Hret 1%nat); [ lia | assumption ].
    + intros H. left. exact (Hh _ _ H).
  - intros [= <- _]. apply (Hret 0%nat); [ lia | assumption ].
  - intros H. left. exact (Hh _ _ H).
Qed.

Lemma returned_record_shape_witness :
  (exists png flag,
     Image_save_png (demo_env [timed_out; completed tiny_png []])
       black_image = inr png /\
     mkScreenshot (Base64.b64encode tiny_png) 720 1280 false =
     mkScreenshot (Base64.b64encode png) 1080 2400 flag) \/
  (exists i r rest img,
     (i < 2)%nat /\
     response (demo_env [timed_out; completed tiny_png []])
       None 60 w0 i = inr r /\
     stdout r = Some (png_magic ++ rest)%list /\
     Image_open (demo_env [timed_out; completed tiny_png []])
       (png_magic ++ rest)%list = inr img /\
     mkScreenshot (Base64.b64encode tiny_png) 720 1280 false =
     mkScreenshot (Base64.b64encode (png_magic ++ rest)%list)
       (fst (im_size img)) (snd (im_size img)) false).
Proof.
  apply (returned_record_shape
           (demo_env [timed_out; completed tiny_png []]) None 60 w0
           (spawns None 60 2 w0)).
  reflexivity.
Defined.

(** X2.  Whatever [get_screenshot] returns, its [base64_data] is valid
    base64: it decodes to the bytes the encoder gave for the black image,
    or to bytes that begin with the PNG magic bytes. *)
Theorem returned_data_decodes
    (E : Env) (device_id : option string) (timeout : Z) (w w' : World)
    (s : Screenshot) :
  get_screenshot E device_id timeout w = (Normal s, w') ->
  exists raw,
    Base64.b64decode (base64_data s) = Some raw /\
    (Image_save_png E black_image = inr raw \/
     exists rest, raw = (png_magic ++ rest)%list).
Proof.
  intros Hrun. rewrite get_screenshot_run in Hrun.
  unfold capture_outcome, body_outcome, loop_outcome in Hrun.
  assert (Hph : forall png flag,
            Image_save_png E black_image = inr png ->
            s = placeholder png flag ->
            exists raw,
              Base64.b64decode (base64_data s) = Some raw /\
              (Image_save_png E black_image = inr raw \/
               exists rest, raw = (png_magic ++ rest)%list)).
  { intros png flag Hsave ->. exists png. split; [ | now left ].
    apply Base64Facts.b64decode_b64encode. }
  assert (Hret : forall resp,
            attempt_outcome E resp = Normal (Return s) ->
            exists raw,
              Base64.b64decode (base64_data s) = Some raw /\
              (Image_save_png E black_image = inr raw \/
               exists rest, raw = (png_magic ++ rest)%list)).
  { intros resp H.
    apply return_shape in H
      as [(png & H1 & H2) | (r & rest & img & H1 & H2 & H3 & ->)].
    - now apply (Hph png true).
    - exists (png_magic ++ rest)%list. split; [ | right; now exists rest ].
      apply Base64Facts.b64decode_b64encode. }
  destruct (attempt_outcome E (response E device_id timeout w 0))
    as [[le0 | s0] | e0] eqn:H0.
  - destruct (attempt_outcome E (response E device_id timeout w 1))
      as [[[e1 | ] | s1] | e1] eqn:H1.
    + destruct (warned E e1 _) as [e1' w1'].
      apply handled_shape in Hrun as (png & Hs & Heq).
      now apply (Hph png false).
    + destruct (fallback_outcome E false) as [s2 | e2] eqn:Hf.
      * injection Hrun as <- _.
        apply fallback_outcome_shape in Hf as (png & Hs & Heq).
        now apply (Hph png false).
      * apply handled_shape in Hrun as (png & Hs & Heq).
        now apply (Hph png false).
    + injection Hrun as <- _. now apply (Hret _ H1).
    + apply handled_shape in Hrun as (png & Hs & Heq). now apply (Hph png false).
  - injection Hrun as <- _. now apply (Hret _ H0).
  - apply handled_shape in Hrun as (png & Hs & Heq). now apply (Hph png false).
Qed.

Lemma returned_data_decodes_witness :
  exists raw,
    Base64.b64decode
      (base64_data (mkScreenshot (Base64.b64encode tiny_png) 720 1280 false)) =
      Some raw /\
    (Image_save_png (demo_env [completed tiny_png []]) black_image = inr raw \/
     exists rest, raw = (png_magic ++ rest)%list).
Proof.
  apply (returned_data_decodes (demo_env [completed tiny_png []]) None 60 w0
           (spawns None 60 1 w0)).
  reflexivity.
Defined.

Lemma handled_result_raised (E : Env) (e0 e : PyExc) :
  handled_result E e0 = Raised e ->
  (is_Exception e0 = false /\ e = e0) \/
  (exists line, print_raises E line = Some e) \/
  Image_save_png E black_image = inl e.
Proof.
  unfold handled_result. destruct (is_Exception e0).
  - destruct (print_raises E (error_line e0)) as [e' | ] eqn:Hp.
    + intros [= <-]. right. left. now exists (error_line e0).
    + unfold fallback_outcome.
      destruct (Image_save_png E black_image); [ | discriminate ].
      intros [= <-]. now right; right.
  - intros [= <-]. now left.
Qed.

(** X3.  When [get_screenshot] raises, the exception is the one the
    encoder of the black image raised, or one that [print] raised, or it
    is not an instance of [Exception] and came from the transport at one
    of the two attempts or from [Image.open]. *)
Theorem raised_exception_origin
    (E : Env) (device_id : option string) (timeout : Z) (w w' : World)
    (e : PyExc) :
  get_screenshot E device_id timeout w = (Raised e, w') ->
  Image_save_png E black_image = inl e \/
  (exists line, print_raises E line = Some e) \/
  (is_Exception e = false /\
   ((exists i, (i < 2)%nat /\ response E device_id timeout w i = inl e) \/
    (exists b, Image_open E b = inl e))).
Proof.
  intros Hrun.
  assert (Hfst : fst (get_screenshot E device_id timeout w) = Raised e)
    by now rewrite Hrun.
  clear Hrun. rewrite get_screenshot_run, fst_capture_outcome in Hfst.
  assert (Hatt : forall i e0, (i < 2)%nat ->
            attempt_outcome E (response E device_id timeout w i) = Raised e0 ->
            handled_result E e0 = Raised e ->
            Image_save_png E black_image = inl e \/
            (exists line, print_raises E line = Some e) \/
            (is_Exception e = false /\
             ((exists i, (i < 2)%nat /\
                 response E device_id timeout w i = inl e) \/
              (exists b, Image_open E b = inl e)))).
  { intros i e0 Hi Hout Hres.
    apply handled_result_raised in Hres as [[He0 ->] | [Hp | Hs]];
      [ | now right; left | now left ].
    apply attempt_raised_inv in Hout as [[Hresp _] | [Hsave | Hopen]].
    - right. right. split; [ assumption | ]. left. now exists i.
    - now left.
    - right. right. split; [ assumption | ]. now right. }
  destruct (attempt_outcome E (response E device_id timeout w 0))
    as [[le0 | s0] | e0] eqn:H0.
  - destruct (attempt_outcome E (response E device_id timeout w 1))
      as [[[e1 | ] | s1] | e1] eqn:H1.
    + apply continue_inv in H1 as (e1' & [= <-] & Hret).
      apply retried_is_Exception in Hret.
      apply handled_result_raised in Hfst as [[He0 ->] | [Hp | Hs]];
        [ | now right; left | now left ].
      unfold warned_exc in *.
      destruct (print_raises E (warn_line e1)) as [e' | ] eqn:Hp;
        [ | congruence ].
      right. left. now exists (warn_line e1).
    + destruct (fallback_outcome E false) as [s2 | e2] eqn:Hfb;
        [ discriminate | ].
      apply handled_result_raised in Hfst as [[He0 ->] | [Hp | Hs]];
        [ | now right; left | now left ].
      left. revert Hfb. unfold fallback_outcome.
      destruct (Image_save_png E black_image); [ | discriminate ].
      now intros [= <-].
    + discriminate.
    + apply (Hatt 1%nat e1); [ lia | assumption | assumption ].
  - discriminate.
  - apply (Hatt 0%nat e0); [ lia | assumption | assumption ].
Qed.

Lemma raised_exception_origin_witness :
  Image_save_png (closed_stdout_env [timed_out; timed_out]) black_image =
    inl (mkExc (OtherException "ValueError") "I/O operation on closed file.")
  \/
  (exists line,
     print_raises (closed_stdout_env [timed_out; timed_out]) line =
       Some (mkExc (OtherException "ValueError")
               "I/O operation on closed file.")) \/
  (is_Exception
     (mkExc (OtherException "ValueError") "I/O operation on closed file.") =
     false /\
   ((exists i,
       (i < 2)%nat /\
       response (closed_stdout_env [timed_out; timed_out]) None 60 w0 i =
         inl (mkExc (OtherException "ValueError")
                "I/O operation on closed file.")) \/
    (exists b,
       Image_open (closed_stdout_env [timed_out; timed_out]) b =
         inl (mkExc (OtherException "ValueError")
                "I/O operation on closed file.")))).
Proof.
  apply (raised_exception_origin (closed_stdout_env [timed_out; timed_out])
           None 60 w0 (spawns None 60 2 w0)).
  reflexivity.
Defined.

(** X4.  An exception of the transport that is not an instance of
    [Exception], raised at an attempt the loop reaches, leaves
    [get_screenshot] at once: no further attempt, nothing printed, no
    fallback. *)
Theorem base_exception_propagates_at_once
    (E : Env) (device_id : option string) (timeout : Z) (w : World)
    (i : nat) (e : PyExc) :
  (i < 2)%nat ->
  (forall j, (j < i)%nat ->
     exists e', retried E (response E device_id timeout w j) e') ->
  response E device_id timeout w i = inl e ->
  is_Exception e = false ->
  get_screenshot E device_id timeout w =
    (Raised e, spawns device_id timeout (S i) w).
Proof.
  intros Hi Hbefore Hresp He.
  rewrite get_screenshot_run.
  rewrite (capture_outcome_raised E device_id timeout w i e Hi Hbefore).
  - unfold handled. now rewrite He.
  - rewrite Hresp. unfold attempt_outcome. now rewrite He.
Qed.

Lemma base_exception_propagates_at_once_witness :
  get_screenshot (demo_env [completed [] []; interrupted]) None 60 w0 =
    (Raised (mkExc KeyboardInterrupt EmptyString), spawns None 60 2 w0).
Proof.
  apply (base_exception_propagates_at_once
           (demo_env [completed [] []; interrupted]) None 60 w0 1).
  - lia.
  - intros j Hj. assert (j = 0%nat) as -> by lia.
    eexists. apply (retried_empty _ (mkCompleted 0 (Some []) (Some [])));
      reflexivity.
  - reflexivity.
  - reflexivity.
Defined.

(** X5.  Output that begins with the PNG magic bytes but that
    [Image.open] rejects is not retried: when the error line can be
    printed, the capture ends at that attempt with that line printed and
    the 1080x2400 fallback with [is_sensitive] false. *)
Theorem undecodable_png_is_not_retried
    (E : Env) (device_id : option string) (timeout : Z) (w : World)
    (i : nat) (r : CompletedProcess) (out : bytes) (e : PyExc)
    (png : bytes) :
  (i < 2)%nat ->
  (forall j, (j < i)%nat ->
     exists e', retried E (response E device_id timeout w j) e') ->
  response E device_id timeout w i = inr r ->
  stdout r = Some out ->
  startswith out png_magic = true ->
  Image_open E out = inl e ->
  is_Exception e = true ->
  Image_save_png E black_image = inr png ->
  print_raises E (error_line e) = None ->
  get_screenshot E device_id timeout w =
    (Normal (mkScreenshot (Base64.b64encode png) 1080 2400 false),
     prints [error_line e] (spawns device_id timeout (S i) w)).
Proof.
  intros Hi Hbefore Hresp Hstdout Hpng Hopen He Hsave Hprint.
  assert (Hbytes : stdout_bytes_of r = out).
  { apply stdout_bytes_of_some; [ assumption | ].
    now apply startswith_magic_nonempty. }
  rewrite get_screenshot_run.
  rewrite (capture_outcome_raised E device_id timeout w i e Hi Hbefore).
  - unfold handled, fallback_outcome. now rewrite He, Hprint, Hsave.
  - rewrite Hresp. unfold attempt_outcome. rewrite Hbytes.
    pose proof (startswith_magic_nonempty _ Hpng) as Hne.
    apply bytes_truthy_true in Hne. now rewrite Hne, Hpng, Hopen.
Qed.

Lemma undecodable_png_is_not_retried_witness :
  get_screenshot (demo_env [completed png_magic []; completed tiny_png []])
    None 60 w0 =
  (Normal (mkScreenshot
             (Base64.b64encode (png_magic ++ be32 1080 ++ be32 2400)%list)
             1080 2400 false),
   prints [error_line (mkExc UnidentifiedImageError "cannot identify image file")]
     (spawns None 60 1 w0)).
Proof.
  apply (undecodable_png_is_not_retried
           (demo_env [completed png_magic []; completed tiny_png []])
           None 60 w0 0 (mkCompleted 0 (Some png_magic) (Some [])) png_magic).
  - lia.
  - intros j Hj. lia.
  - reflexivity.
  - reflexivity.
  - reflexivity.
  - reflexivity.
  - reflexivity.
  - reflexivity.
  - reflexivity.
Defined.

(** X6.  A capture keeps the lines printed before it and adds none, or
    one error line, or a warning line alone, or a warning line followed
    by the error line for the same exception.  A warning line alone is
    left only when the capture raises; no line is added when the capture
    returns a record with [is_sensitive] true. *)
Theorem printed_lines_shape
    (E : Env) (device_id : option string) (timeout : Z) (w : World) :
  exists lines,
    printed (snd (get_screenshot E device_id timeout w)) =
      (printed w ++ lines)%list /\
    (lines = [] \/
     (exists e, lines = [error_line e]) \/
     (exists e e',
        lines = [warn_line e] /\
        fst (get_screenshot E device_id timeout w) = Raised e') \/
     (exists e, lines = [warn_line e; error_line e])) /\
    (forall s,
       fst (get_screenshot E device_id timeout w) = Normal s ->
       is_sensitive s = true -> lines = []).
Proof.
  rewrite get_screenshot_run.
  unfold capture_outcome, body_outcome, loop_outcome.
  assert (Hnone : forall (o : Outcome Screenshot) k,
            exists lines,
              printed (snd (o, spawns device_id timeout k w)) =
                (printed w ++ lines)%list /\
              (lines = [] \/
               (exists e, lines = [error_line e]) \/
               (exists e e',
                  lines = [warn_line e] /\
                  fst (o, spawns device_id timeout k w) = Raised e') \/
               (exists e, lines = [warn_line e; error_line e])) /\
              (forall s, fst (o, spawns device_id timeout k w) = Normal s ->
                 is_sensitive s = true -> lines = [])).
  { intros o k. exists []. cbn [snd fst spawns printed].
    rewrite app_nil_r. auto. }
  assert (Hh : forall e k,
            exists lines,
              printed (snd (handled E e (spawns device_id timeout k w))) =
                (printed w ++ lines)%list /\
              (lines = [] \/
               (exists e, lines = [error_line e]) \/
               (exists e0 e',
                  lines = [warn_line e0] /\
                  fst (handled E e (spawns device_id timeout k w)) =
                    Raised e') \/
               (exists e, lines = [warn_line e; error_line e])) /\
              (forall s,
                 fst (handled E e (spawns device_id timeout k w)) = Normal s ->
                 is_sensitive s = true -> lines = [])).
  { intros e k. unfold handled. destruct (is_Exception e).
    - destruct (print_raises E (error_line e)) as [e' | ].
      + exists []. cbn [snd fst spawns printed]. rewrite app_nil_r.
        split; [ reflexivity | ]. split; [ now left | discriminate ].
      + exists [error_line e]. cbn [snd fst prints spawns printed].
        split; [ reflexivity | ]. split; [ right; left; now exists e | ].
        intros s Hs Htrue. apply fallback_outcome_flag in Hs. congruence.
    - exists []. cbn [snd fst spawns printed]. rewrite app_nil_r.
      split; [ reflexivity | ]. split; [ now left | discriminate ]. }
  destruct (attempt_outcome E (response E device_id timeout w 0))
    as [[le0 | s0] | e0] eqn:H0.
  - destruct (attempt_outcome E (response E device_id timeout w 1))
      as [[[e1 | ] | s1] | e1] eqn:H1.
    + apply continue_inv in H1 as (e1' & [= <-] & Hret).
      apply retried_is_Exception in Hret.
      unfold warned.
      destruct (print_raises E (warn_line e1)) as [e' | ]; [ apply Hh | ].
      unfold handled. rewrite Hret.
      destruct (print_raises E (error_line e1)) as [e' | ].
      * exists [warn_line e1]. cbn [snd fst prints spawns printed].
        split; [ reflexivity | ].
        split; [ right; right; left; now exists e1, e' | discriminate ].
      * exists [warn_line e1; error_line e1].
        cbn [snd fst prints spawns printed]. rewrite <- app_assoc.
        split; [ reflexivity | ].
        split; [ right; right; right; now exists e1 | ].
        intros s Hs Htrue. apply fallback_outcome_flag in Hs. congruence.
    + destruct (fallback_outcome E false) as [s2 | e2];
        [ apply Hnone | apply Hh ].
    + apply Hnone.
    + apply Hh.
  - apply Hnone.
  - apply Hh.
Qed.

(** X7.  For output that is not empty and not a PNG, a refusal marker in
    the stderr text alone, or in the decoded output alone, is enough: the
    capture ends at that attempt with the 1080x2400 fallback and
    [is_sensitive] true. *)
Theorem marker_in_either_stream_refuses
    (E : Env) (device_id : option string) (timeout : Z) (w : World)
    (i : nat) (r : CompletedProcess) (png : bytes) :
  (i < 2)%nat ->
  (forall j, (j < i)%nat ->
     exists e, retried E (response E device_id timeout w j) e) ->
  response E device_id timeout w i = inr r ->
  stdout_bytes_of r <> [] ->
  startswith (stdout_bytes_of r) png_magic = false ->
  has_marker (stderr_text_of E r) = true \/
  has_marker (bytes_decode E (stdout_bytes_of r)) = true ->
  Image_save_png E black_image = inr png ->
  get_screenshot E device_id timeout w =
    (Normal (mkScreenshot (Base64.b64encode png) 1080 2400 true),
     spawns device_id timeout (S i) w).
Proof.
  intros Hi Hbefore Hresp Hne Hpng Hmark Hsave.
  rewrite get_screenshot_run.
  rewrite (capture_outcome_refused E device_id timeout w i r Hi Hbefore Hresp).
  - unfold fallback_outcome. now rewrite Hsave.
  - apply refused_not_png; try assumption.
    unfold combined_text_of. now apply has_marker_app.
Qed.

Lemma marker_in_either_stream_refuses_witness :
  get_screenshot (demo_env [completed (encode_ascii "oops") secure_stderr])
    None 60 w0 =
  (Normal (mkScreenshot
             (Base64.b64encode (png_magic ++ be32 1080 ++ be32 2400)%list)
             1080 2400 true),
   spawns None 60 1 w0).
Proof.
  apply (marker_in_either_stream_refuses
           (demo_env [completed (encode_ascii "oops") secure_stderr])
           None 60 w0 0
           (mkCompleted 0 (Some (encode_ascii "oops")) (Some secure_stderr))).
  - lia.
  - intros j Hj. lia.
  - reflexivity.
  - discriminate.
  - reflexivity.
  - left. reflexivity.
  - reflexivity.
Defined.

(* ------------------------------------------------------------------ *)
(** ** Size of the encoded data, and the command *)

Lemma length_string_of_list_ascii (l : list ascii) :
  String.length (string_of_list_ascii l) = List.length l.
Proof. induction l as [ | c l IH ]; simpl; congruence. Qed.

(** X8.  The base64 text of [n] bytes has [4 * ceil(n / 3)] characters:
    four for every group of three bytes, the last group padded. *)
Theorem b64encode_length (data : bytes) :
  String.length (Base64.b64encode data) =
  (4 * ((List.length data + 2) / 3))%nat.
Proof.
  unfold Base64.b64encode. rewrite length_string_of_list_ascii.
  induction data as [ | a | a b | a b c rest IH ]
    using Base64Facts.bytes_ind3.
  - reflexivity.
  - cbn [Base64.encode_chars].
    destruct (Base64.sextets_of a x00 x00) as [[[s1 s2] s3] s4]. reflexivity.
  - cbn [Base64.encode_chars].
    destruct (Base64.sextets_of a b x00) as [[[s1 s2] s3] s4]. reflexivity.
  - cbn [Base64.encode_chars].
    destruct (Base64.sextets_of a b c) as [[[s1 s2] s3] s4].
    cbn [List.length]. rewrite IH.
    replace (S (S (S (List.length rest))) + 2)%nat
      with (List.length rest + 2 + 1 * 3)%nat by lia.
    rewrite Nat.div_add by lia. lia.
Qed.

(** X9.  The command keeps the device id as one argument: two non-empty
    device ids give the same command only when they are the same string,
    and a non-empty device id never gives the command of no device id. *)
Theorem command_determines_device (d1 d2 : string) :
  d1 <> EmptyString ->
  d2 <> EmptyString ->
  (screencap_command (Some d1) = screencap_command (Some d2) <-> d1 = d2) /\
  screencap_command (Some d1) <> screencap_command None.
Proof.
  intros H1 H2.
  destruct d1 as [ | c1 d1 ]; [ congruence | ].
  destruct d2 as [ | c2 d2 ]; [ congruence | ].
  split; [ split | ].
  - unfold screencap_command. cbn. now intros [= -> ->].
  - now intros ->.
  - unfold screencap_command. cbn. discriminate.
Qed.

Lemma command_determines_device_witness :
  (screencap_command (Some "emulator-5554") =
   screencap_command (Some "192.168.1.7:5555") <->
   "emulator-5554" = "192.168.1.7:5555") /\
  screencap_command (Some "emulator-5554") <> screencap_command None.
Proof.
  apply (command_determines_device "emulator-5554" "192.168.1.7:5555");
    discriminate.
Defined.

(* ------------------------------------------------------------------ *)
(** ** What of a response is looked at *)

Lemma stderr_text_of_bytes_or (E : Env) (r : CompletedProcess) :
  stderr_text_of E r =
  if bytes_truthy (bytes_or (stderr r) [])
  then bytes_decode E (bytes_or (stderr r) [])
  else EmptyString.
Proof.
  unfold stderr_text_of, bytes_or.
  destruct (stderr r) as [ [ | x b ] | ]; reflexivity.
Qed.

Lemma attempt_outcome_same_streams (E : Env)
    (a b : PyExc + CompletedProcess) :
  same_streams a b -> attempt_outcome E a = attempt_outcome E b.
Proof.
  destruct a as [e1 | r1], b as [e2 | r2]; cbn [same_streams];
    try contradiction.
  - now intros ->.
  - intros [Hout Herr]. unfold attempt_outcome, combined_text_of.
    rewrite !stderr_text_of_bytes_or, Hout, Herr. reflexivity.
Qed.

(** X10.  Only the streams of a completed process are looked at: the exit
    status is never consulted, and a missing stdout or stderr counts as
    an empty one.  Two transports whose responses to the two attempts
    carry the same streams give the same result and the same world. *)
Theorem exit_status_is_ignored
    (E : Env) (run1 run2 : nat -> list string -> Z -> PyExc + CompletedProcess)
    (device_id : option string) (timeout : Z) (w : World) :
  (forall i, (i < 2)%nat ->
     same_streams
       (response (with_transport E run1) device_id timeout w i)
       (response (with_transport E run2) device_id timeout w i)) ->
  get_screenshot (with_transport E run1) device_id timeout w =
  get_screenshot (with_transport E run2) device_id timeout w.
Proof.
  intros Hsame.
  rewrite !get_screenshot_run.
  unfold capture_outcome, body_outcome, loop_outcome.
  change (attempt_outcome (with_transport E run1))
    with (attempt_outcome E).
  change (attempt_outcome (with_transport E run2))
    with (attempt_outcome E).
  rewrite (attempt_outcome_same_streams E _ _ (Hsame 0%nat ltac:(lia))).
  rewrite (attempt_outcome_same_streams E _ _ (Hsame 1%nat ltac:(lia))).
  reflexivity.
Qed.

Lemma exit_status_is_ignored_witness :
  get_screenshot
    (with_transport (demo_env [])
       (scripted [inr (mkCompleted 0 (Some tiny_png) None)]))
    None 60 w0 =
  get_screenshot
    (with_transport (demo_env [])
       (scripted [inr (mkCompleted 1 (Some tiny_png) (Some []))]))
    None 60 w0.
Proof.
  apply (exit_status_is_ignored (demo_env [])
           (scripted [inr (mkCompleted 0 (Some tiny_png) None)])
           (scripted [inr (mkCompleted 1 (Some tiny_png) (Some []))])
           None 60 w0).
  intros i Hi.
  destruct i as [ | [ | i ] ]; [ | | lia ]; cbn; auto.
Defined.
